(** * Dataset policy compilers of [DatasetPolicyEdit.tsx]

    A shallow embedding of the policy model, of the UUID helper and of the
    two generators [generateIDSPolicy] and [generateODRLPolicy] found in
    [src/pages/provider/policies/DatasetPolicyEdit.tsx], together with the
    properties the specification states about them.

    JavaScript values are embedded as follows.
    - Strings are [string]; every [ascii] stands for one code unit.
    - Numbers that reach the generators are integers and are embedded as
      [Z].  [Number.prototype.toString] is the digit expansion below; on
      the safe-integer range ([MAX_SAFE_INTEGER]) this is what the
      JavaScript method prints.  [NaN], infinities and fractions are
      outside the embedding; the form layer hands over
      [parseInt(...) || 1].
    - An optional field [f?: T] is an [option T]; [None] is [undefined].
    - An object literal is an ordered property list: [JSON.stringify]
      prints properties in insertion order, assignment to an existing key
      keeps its position and assignment to a new key appends (no property
      name of these documents is an array index, which would be listed
      first). *)

From Stdlib Require Import ZArith List String Ascii Bool Lia QArith Qround.
Import ListNotations.

Local Open Scope string_scope.
Local Open Scope Z_scope.

(** ** JavaScript values that occur in the generated documents *)

#[local] Set Warnings "-register-all".

Inductive json : Type :=
| JString (s : string)
| JNumber (n : Z)
| JArray (elems : list json)
| JObject (props : list (string * json)).

Module Obj.

(** [o[k]] on a property list. *)
Fixpoint lookup (k : string) (ps : list (string * json)) : option json :=
  match ps with
  | [] => None
  | (k', v) :: rest => if String.eqb k' k then Some v else lookup k rest
  end.

(** [o[k] = v] on a property list: overwrite in place, or append. *)
Fixpoint assign (k : string) (v : json) (ps : list (string * json))
  : list (string * json) :=
  match ps with
  | [] => [(k, v)]
  | (k', v') :: rest =>
      if String.eqb k' k then (k', v) :: rest
      else (k', v') :: assign k v rest
  end.

(** [delete o[k]]; only used to compare documents up to one field. *)
Fixpoint remove (k : string) (ps : list (string * json))
  : list (string * json) :=
  match ps with
  | [] => []
  | (k', v') :: rest =>
      if String.eqb k' k then remove k rest else (k', v') :: remove k rest
  end.

Definition get (k : string) (o : json) : option json :=
  match o with
  | JObject ps => lookup k ps
  | _ => None
  end.

Definition set (k : string) (v : json) (o : json) : json :=
  match o with
  | JObject ps => JObject (assign k v ps)
  | _ => o
  end.

Definition without (k : string) (o : json) : json :=
  match o with
  | JObject ps => JObject (remove k ps)
  | _ => o
  end.

Definition keys (o : json) : list string :=
  match o with
  | JObject ps => map fst ps
  | _ => []
  end.

(** [a[i]] on an array value. *)
Definition index (i : nat) (a : json) : option json :=
  match a with
  | JArray l => nth_error l i
  | _ => None
  end.

(** The source keeps [permission = basePolicy[key][0]], a reference into
    the document, and assigns to its properties.  The write is visible
    through [basePolicy]; this is that write, as an update at the path
    [key], [0]. *)
Definition at_first (key : string) (f : json -> json) (doc : json) : json :=
  match get key doc with
  | Some (JArray (p :: rest)) => set key (JArray (f p :: rest)) doc
  | _ => doc
  end.

(** [doc[key][0]], the aliased permission object. *)
Definition first_of (key : string) (doc : json) : option json :=
  match get key doc with
  | Some a => index 0 a
  | None => None
  end.

End Obj.

(** Every string that occurs in a value, property names included. *)
Fixpoint strings_of (v : json) : list string :=
  match v with
  | JString s => [s]
  | JNumber _ => []
  | JArray l => flat_map strings_of l
  | JObject ps =>
      flat_map (fun kv => match kv with (k, x) => k :: strings_of x end) ps
  end.

(** ** [Number.prototype.toString(radix)] on integers *)

Definition MAX_SAFE_INTEGER : Z := 2 ^ 53 - 1.

Definition digit_char (d : Z) : ascii :=
  match String.get (Z.to_nat d) "0123456789abcdefghijklmnopqrstuvwxyz" with
  | Some c => c
  | None => "0"%char
  end.

Fixpoint radix_digits (radix : Z) (fuel : nat) (n : Z) (acc : string) : string :=
  match fuel with
  | O => acc
  | S fuel' =>
      let acc' := String (digit_char (n mod radix)) acc in
      if n / radix =? 0 then acc' else radix_digits radix fuel' (n / radix) acc'
  end.

Definition Number_toString (radix : Z) (n : Z) : string :=
  let m := Z.abs n in
  let body := radix_digits radix (S (Z.to_nat (Z.log2 m))) m "" in
  if n <? 0 then String "-"%char body else body.

(** Reading a decimal numeral back, to say what "decimal rendering" means
    independently of the printer. *)
Definition decimal_digit (c : ascii) : option Z :=
  let k := Z.of_nat (nat_of_ascii c) in
  if (48 <=? k) && (k <=? 57) then Some (k - 48) else None.

Fixpoint read_digits (acc : Z) (s : string) : option Z :=
  match s with
  | EmptyString => Some acc
  | String c rest =>
      match decimal_digit c with
      | Some d => read_digits (10 * acc + d) rest
      | None => None
      end
  end.

Definition read_decimal (s : string) : option Z :=
  match s with
  | EmptyString => None
  | String c rest =>
      if Ascii.eqb c "-"%char then
        match rest with
        | EmptyString => None
        | _ => option_map Z.opp (read_digits 0 rest)
        end
      else read_digits 0 s
  end.

(** ** [JSON.stringify(value, null, 2)] *)

Definition dquote : ascii := ascii_of_nat 34.
Definition newline : ascii := ascii_of_nat 10.

Definition hex2 (k : Z) : string :=
  String (digit_char (k / 16)) (String (digit_char (k mod 16)) "").

(** One code unit inside [QuoteJSONString]. *)
Definition quote_unit (c : ascii) : string :=
  let k := Z.of_nat (nat_of_ascii c) in
  if k =? 34 then String "\"%char (String dquote "")
  else if k =? 92 then "\\"
  else if k =? 8 then "\b"
  else if k =? 9 then "\t"
  else if k =? 10 then "\n"
  else if k =? 12 then "\f"
  else if k =? 13 then "\r"
  else if k <? 32 then "\u00" ++ hex2 k
  else String c "".

Fixpoint quote_units (s : string) : string :=
  match s with
  | EmptyString => EmptyString
  | String c rest => quote_unit c ++ quote_units rest
  end.

Definition QuoteJSONString (s : string) : string :=
  String dquote (quote_units s ++ String dquote "").

Definition gap : string := "  ".

Definition join (sep : string) (parts : list string) : string :=
  match parts with
  | [] => ""
  | p :: rest => fold_left (fun acc q => acc ++ sep ++ q) rest p
  end.

Definition bracketed (open close indent stepback : string)
  (parts : list string) : string :=
  match parts with
  | [] => open ++ close
  | _ =>
      open ++ String newline indent
        ++ join ("," ++ String newline indent) parts
        ++ String newline stepback ++ close
  end.

Fixpoint SerializeJSONProperty (stepback : string) (v : json) : string :=
  let indent := stepback ++ gap in
  match v with
  | JString s => QuoteJSONString s
  | JNumber n => Number_toString 10 n
  | JArray l =>
      bracketed "[" "]" indent stepback
        (map (SerializeJSONProperty indent) l)
  | JObject ps =>
      bracketed "{" "}" indent stepback
        (map (fun kv =>
                match kv with
                | (k, x) =>
                    QuoteJSONString k ++ ": " ++ SerializeJSONProperty indent x
                end) ps)
  end.

Definition JSON_stringify (v : json) : string := SerializeJSONProperty "" v.

(** ** The policy model *)

Inductive PolicyType : Type :=
| restrict_consumer
| restrict_connector
| time_limit
| usage_count.

Record Dataset : Type := mkDataset {
  id : Z;
  name : string;
  description : string;
  uuid : string
}.

Record PolicyConfig : Type := mkPolicyConfig {
  type : PolicyType;
  consumers : option (list string);
  connectors : option (list string);
  startTime : option string;
  endTime : option string;
  maxUsageCount : option Z
}.

(** Truthiness of an optional string and of an optional number, as the
    guards [if (config.startTime && config.endTime)] and
    [if (config.maxUsageCount)] test it. *)
Definition truthy_string (s : option string) : bool :=
  match s with
  | Some (String _ _) => true
  | _ => false
  end.

Definition truthy_number (n : option Z) : bool :=
  match n with
  | Some k => negb (k =? 0)
  | None => false
  end.

(** ** The IDS generator *)

Module IDS.

Definition idRef (i : string) : json := JObject [("@id", JString i)].

Definition typedValue (v ty : string) : json :=
  JObject [("@value", JString v); ("@type", JString ty)].

Definition constraint (left op : string) (right : json) : json :=
  JObject [("@type", JString "ids:Constraint");
           ("ids:leftOperand", idRef left);
           ("ids:operator", idRef op);
           ("ids:rightOperand", JArray [right])].

Definition basePermission (dataset : Dataset) : json :=
  JObject [("ids:target",
             idRef ("http://example.com/ids/target/" ++ uuid dataset));
           ("ids:action", JArray [idRef "idsc:USE"])].

Definition basePolicy (dataset : Dataset) : json :=
  JObject [("@context",
             JObject [("ids", JString "https://w3id.org/idsa/core/");
                      ("idsc", JString "https://w3id.org/idsa/code/")]);
           ("@type", JString "ids:ContractAgreement");
           ("@id",
             JString ("https://w3id.org/idsa/autogen/contract/"
                        ++ uuid dataset));
           ("profile", JString "http://example.com/ids-profile");
           ("ids:provider", JString "http://example.com/party/data-provider");
           ("ids:consumer", JString "http://example.com/party/data-consumer");
           ("ids:permission", JArray [basePermission dataset])].

(** [permission["ids:constraint"] = cs], through the alias. *)
Definition setConstraint (cs : list json) (doc : json) : json :=
  Obj.at_first "ids:permission" (Obj.set "ids:constraint" (JArray cs)) doc.

(** The object that reaches [JSON.stringify]. *)
Definition policy (dataset : Dataset) (config : PolicyConfig) : json :=
  let basePolicy := basePolicy dataset in
  match type config with
  | restrict_consumer =>
      match consumers config with
      | Some (c0 :: _) => Obj.set "ids:consumer" (JString c0) basePolicy
      | _ => basePolicy
      end
  | restrict_connector =>
      match connectors config with
      | Some (c0 :: _) =>
          setConstraint
            [constraint "idsc:CONNECTOR" "idsc:EQUALS"
               (typedValue c0 "xsd:string")]
            basePolicy
      | _ => basePolicy
      end
  | time_limit =>
      match startTime config, endTime config with
      | Some st, Some et =>
          if truthy_string (Some st) && truthy_string (Some et) then
            setConstraint
              [constraint "idsc:POLICY_EVALUATION_TIME" "idsc:AFTER"
                 (typedValue st "xsd:dateTimeStamp");
               constraint "idsc:POLICY_EVALUATION_TIME" "idsc:BEFORE"
                 (typedValue et "xsd:dateTimeStamp")]
              basePolicy
          else basePolicy
      | _, _ => basePolicy
      end
  | usage_count =>
      match maxUsageCount config with
      | Some n =>
          if truthy_number (Some n) then
            setConstraint
              [constraint "idsc:COUNT" "idsc:LTEQ"
                 (typedValue (Number_toString 10 n) "xsd:double")]
              basePolicy
          else basePolicy
      | None => basePolicy
      end
  end.

End IDS.

Definition generateIDSPolicy (dataset : Dataset) (config : PolicyConfig)
  : string :=
  JSON_stringify (IDS.policy dataset config).

(** ** The ODRL generator *)

(** The two generators and the UUID helper run in a browser.  What they
    can observe of it is the wall clock, read by [new Date().toISOString()],
    and the random source behind [Math.random()], whose [n]-th call returns
    the [n]-th draw. *)
Record World : Type := mkWorld {
  clock : string;
  entropy : nat -> Q;
  drawn : nat
}.

Definition JS (A : Type) : Type := World -> A * World.

Definition ret {A : Type} (a : A) : JS A := fun w => (a, w).

Definition bind {A B : Type} (m : JS A) (k : A -> JS B) : JS B :=
  fun w => match m w with (a, w') => k a w' end.

Notation "x <- m ;; k" := (bind m (fun x => k))
  (at level 61, m at next level, right associativity).

Definition Date_toISOString : JS string := fun w => (clock w, w).

Definition Math_random : JS Q :=
  fun w => (entropy w (drawn w),
            mkWorld (clock w) (entropy w) (S (drawn w))).

Definition result {A : Type} (m : JS A) (w : World) : A := fst (m w).

Module ODRL.

Definition typedValue (v ty : string) : json :=
  JObject [("@value", JString v); ("@type", JString ty)].

Definition constraint (left op : string) (right : json) : json :=
  JObject [("leftOperand", JString left);
           ("operator", JString op);
           ("rightOperand", right)].

Definition basePermission (dataset : Dataset) : json :=
  JObject [("target",
             JString ("http://example.com/ids/data/" ++ uuid dataset));
           ("assigner", JString "http://example.com/ids/party/data-provider");
           ("assignee", JString "http://example.com/ids/party/data-consumer");
           ("action", JString "use")].

Definition basePolicy (issued : string) (dataset : Dataset) : json :=
  JObject [("@context",
             JArray [JString "http://www.w3.org/ns/odrl.jsonld";
                     JObject [("dc", JString "http://purl.org/dc/terms/");
                              ("ids", JString "https://w3id.org/idsa/core/");
                              ("idsc", JString "https://w3id.org/idsa/code/")]]);
           ("@type", JString "Agreement");
           ("uid", JString ("http://example.com/policy/" ++ uuid dataset));
           ("profile", JString "http://www.w3.org/ns/odrl/2/core");
           ("dc:creator", JString "Data Provider");
           ("dc:description",
             JString ("Policy for dataset: " ++ name dataset));
           ("dc:issued", JString issued);
           ("permission", JArray [basePermission dataset])].

(** [permission.constraint = cs] and [permission.assignee = a], through
    the alias. *)
Definition setConstraint (cs : list json) (doc : json) : json :=
  Obj.at_first "permission" (Obj.set "constraint" (JArray cs)) doc.

Definition setAssignee (a : string) (doc : json) : json :=
  Obj.at_first "permission" (Obj.set "assignee" (JString a)) doc.

(** The switch, applied to the freshly built [basePolicy]. *)
Definition applyConfig (config : PolicyConfig) (basePolicy : json) : json :=
  match type config with
  | restrict_consumer =>
      match consumers config with
      | Some (c0 :: _) => setAssignee c0 basePolicy
      | _ => basePolicy
      end
  | restrict_connector =>
      match connectors config with
      | Some (c0 :: _) =>
          setConstraint [constraint "connector" "eq" (JString c0)] basePolicy
      | _ => basePolicy
      end
  | time_limit =>
      match startTime config, endTime config with
      | Some st, Some et =>
          if truthy_string (Some st) && truthy_string (Some et) then
            setConstraint
              [constraint "dateTime" "gteq" (typedValue st "xsd:dateTime");
               constraint "dateTime" "lteq" (typedValue et "xsd:dateTime")]
              basePolicy
          else basePolicy
      | _, _ => basePolicy
      end
  | usage_count =>
      match maxUsageCount config with
      | Some n =>
          if truthy_number (Some n) then
            setConstraint [constraint "count" "lteq" (JNumber n)] basePolicy
          else basePolicy
      | None => basePolicy
      end
  end.

(** The object that reaches [JSON.stringify]. *)
Definition policy (dataset : Dataset) (config : PolicyConfig) : JS json :=
  issued <- Date_toISOString ;;
  ret (applyConfig config (basePolicy issued dataset)).

End ODRL.

Definition generateODRLPolicy (dataset : Dataset) (config : PolicyConfig)
  : JS string :=
  doc <- ODRL.policy dataset config ;;
  ret (JSON_stringify doc).

(** The IDS generator touches neither the clock nor the random source; it
    is lifted to [JS] only to speak about invocations in different worlds. *)
Definition invokeIDS (dataset : Dataset) (config : PolicyConfig) : JS string :=
  ret (generateIDSPolicy dataset config).

(** ** [generateUUID] *)

Module UUID.

(** Truncation towards zero followed by reduction to a signed 32-bit
    integer: the conversion the bitwise operators apply. *)
Definition truncate (q : Q) : Z :=
  if Qle_bool 0 q then Qfloor q else Qceiling q.

Definition ToInt32 (q : Q) : Z :=
  let m := truncate q mod 2 ^ 32 in
  if m <? 2 ^ 31 then m else m - 2 ^ 32.

(** [function(c) { ... }], the replacement callback. *)
Definition replacer (c : ascii) : JS string :=
  x <- Math_random ;;
  let r := Z.lor (ToInt32 (x * 16)) 0 in
  let v := if Ascii.eqb c "x" then r else Z.lor (Z.land r 3) 8 in
  ret (Number_toString 16 v).

(** [s.replace(/[xy]/g, fn)]: every code unit [x] or [y] is replaced by
    what [fn] returns for it, from left to right. *)
Fixpoint replace_xy (fn : ascii -> JS string) (s : string) : JS string :=
  match s with
  | EmptyString => ret EmptyString
  | String c rest =>
      if Ascii.eqb c "x" || Ascii.eqb c "y" then
        v <- fn c ;;
        out <- replace_xy fn rest ;;
        ret (v ++ out)
      else
        out <- replace_xy fn rest ;;
        ret (String c out)
  end.

Definition template : string := "xxxxxxxx-xxxx-4xxx-yxxx-xxxxxxxxxxxx".

(** The canonical layout, stated on its own. *)
Inductive slot : Type := Hex | Hyphen | Version4 | Variant.

Definition is_hex (c : ascii) : bool :=
  existsb (Ascii.eqb c) (list_ascii_of_string "0123456789abcdef").

Definition is_variant (c : ascii) : bool :=
  existsb (Ascii.eqb c) (list_ascii_of_string "89ab").

Definition slot_ok (k : slot) (c : ascii) : bool :=
  match k with
  | Hex => is_hex c
  | Hyphen => Ascii.eqb c "-"
  | Version4 => Ascii.eqb c "4"
  | Variant => is_variant c
  end.

Fixpoint conforms (l : list slot) (s : string) : bool :=
  match l, s with
  | [], EmptyString => true
  | k :: l', String c s' => slot_ok k c && conforms l' s'
  | _, _ => false
  end.

Definition group (n : nat) : list slot := repeat Hex n.

Definition layout : list slot :=
  group 8 ++ [Hyphen] ++ group 4 ++ [Hyphen]
    ++ [Version4] ++ group 3 ++ [Hyphen]
    ++ [Variant] ++ group 3 ++ [Hyphen] ++ group 12.

(** The slot a code unit of a template stands for, the code units a
    UUID template is made of, and the number of draws a template costs. *)
Definition slot_of (c : ascii) : slot :=
  if Ascii.eqb c "x" then Hex
  else if Ascii.eqb c "y" then Variant
  else if Ascii.eqb c "4" then Version4
  else Hyphen.

Definition template_unit (c : ascii) : bool :=
  existsb (Ascii.eqb c) (list_ascii_of_string "xy4-").

Fixpoint well_formed (t : string) : bool :=
  match t with
  | EmptyString => true
  | String c t' => template_unit c && well_formed t'
  end.

Fixpoint slots (t : string) : list slot :=
  match t with
  | EmptyString => []
  | String c t' => slot_of c :: slots t'
  end.

Fixpoint draws (t : string) : nat :=
  match t with
  | EmptyString => 0
  | String c t' =>
      if Ascii.eqb c "x" || Ascii.eqb c "y" then S (draws t') else draws t'
  end.

(** [Math.random()] returns a number in [[0, 1)]. *)
Definition unit_interval (w : World) : Prop :=
  forall i : nat, (0 <= entropy w i < 1)%Q.

Definition advance (k : nat) (w : World) : World :=
  mkWorld (clock w) (entropy w) (drawn w + k).

End UUID.

Definition generateUUID : JS string :=
  UUID.replace_xy UUID.replacer UUID.template.

(** [convertToDatasets], over the catalog records [(id, name, description)]:
    [Array.prototype.map] calls [generateUUID] once per record, in order. *)
Fixpoint convertToDatasets (resources : list (Z * string * string))
  : JS (list Dataset) :=
  match resources with
  | [] => ret []
  | (i, n, d) :: rest =>
      u <- generateUUID ;;
      ds <- convertToDatasets rest ;;
      ret (mkDataset i n d u :: ds)
  end.

(** ** [parseInt(string)] on integers

    The one-argument form: leading white space is skipped, a sign is read,
    a [0x] / [0X] prefix switches to radix 16, and the longest prefix of
    digits is the value; no digit at all is [NaN], here [None].  The value
    is exact on the safe-integer range. *)

Definition is_StrWhiteSpaceChar (c : ascii) : bool :=
  let k := Z.of_nat (nat_of_ascii c) in
  ((9 <=? k) && (k <=? 13)) || (k =? 32) || (k =? 160).

Fixpoint trim_start (s : string) : string :=
  match s with
  | EmptyString => EmptyString
  | String c rest => if is_StrWhiteSpaceChar c then trim_start rest else s
  end.

Definition radix_digit_value (c : ascii) : option Z :=
  let k := Z.of_nat (nat_of_ascii c) in
  if (48 <=? k) && (k <=? 57) then Some (k - 48)
  else if (97 <=? k) && (k <=? 122) then Some (k - 87)
  else if (65 <=? k) && (k <=? 90) then Some (k - 55)
  else None.

(** The value of the longest prefix of radix-[radix] digits of [s]; [acc]
    is the value read so far, [None] while no digit was read. *)
Fixpoint parse_prefix (radix : Z) (s : string) (acc : option Z) : option Z :=
  match s with
  | EmptyString => acc
  | String c rest =>
      match radix_digit_value c with
      | Some d =>
          if d <? radix then
            parse_prefix radix rest
              (Some (radix * match acc with Some a => a | None => 0 end + d))
          else acc
      | None => acc
      end
  end.

Definition split_sign (s : string) : Z * string :=
  match s with
  | String c rest =>
      if Ascii.eqb c "-" then (-1, rest)
      else if Ascii.eqb c "+" then (1, rest)
      else (1, s)
  | EmptyString => (1, s)
  end.

Definition strip_prefix (s : string) : Z * string :=
  match s with
  | String c0 (String c1 rest) =>
      if Ascii.eqb c0 "0" && (Ascii.eqb c1 "x" || Ascii.eqb c1 "X")
      then (16, rest)
      else (10, s)
  | _ => (10, s)
  end.

Definition parseInt (s : string) : option Z :=
  match split_sign (trim_start s) with
  | (sign, s1) =>
      match strip_prefix s1 with
      | (radix, s2) =>
          match parse_prefix radix s2 None with
          | Some m => Some (sign * m)
          | None => None
          end
      end
  end.


(** ** The form component: its state and its handlers

    [DatasetPolicyEdit] keeps six [useState] cells.  A handler computes
    the next state from the state of the render it was created in. *)

Record State : Type := mkState {
  datasets : list Dataset;
  selectedDataset : option Dataset;
  policyType : PolicyType;
  policyConfig : PolicyConfig;
  idsPolicy : string;
  odrlPolicy : string
}.

(** [setPolicyConfig(c)] and [setSelectedDataset(v)]. *)
Definition setPolicyConfig (c : PolicyConfig) (s : State) : State :=
  mkState (datasets s) (selectedDataset s) (policyType s) c
    (idsPolicy s) (odrlPolicy s).

Definition setSelectedDataset (v : option Dataset) (s : State) : State :=
  mkState (datasets s) v (policyType s) (policyConfig s)
    (idsPolicy s) (odrlPolicy s).

Definition handlePolicyTypeChange (newType : PolicyType) (s : State) : State :=
  let c := policyConfig s in
  mkState (datasets s) (selectedDataset s) newType
    (mkPolicyConfig newType (consumers c) (connectors c) (startTime c)
       (endTime c) (maxUsageCount c))
    (idsPolicy s) (odrlPolicy s).

Definition handleConsumersChange (newValue : list string) (s : State) : State :=
  let c := policyConfig s in
  setPolicyConfig
    (mkPolicyConfig (type c) (Some newValue) (connectors c) (startTime c)
       (endTime c) (maxUsageCount c)) s.

Definition handleConnectorsChange (newValue : list string) (s : State) : State :=
  let c := policyConfig s in
  setPolicyConfig
    (mkPolicyConfig (type c) (consumers c) (Some newValue) (startTime c)
       (endTime c) (maxUsageCount c)) s.

Inductive TimeField : Type := startTimeField | endTimeField.

Definition handleTimeChange (field : TimeField) (value : string) (s : State)
  : State :=
  let c := policyConfig s in
  setPolicyConfig
    (match field with
     | startTimeField =>
         mkPolicyConfig (type c) (consumers c) (connectors c) (Some value)
           (endTime c) (maxUsageCount c)
     | endTimeField =>
         mkPolicyConfig (type c) (consumers c) (connectors c) (startTime c)
           (Some value) (maxUsageCount c)
     end) s.

(** [parseInt(event.target.value) || 1]: [NaN] and [0] are falsy. *)
Definition parsedCount (value : string) : Z :=
  match parseInt value with
  | Some n => if n =? 0 then 1 else n
  | None => 1
  end.

Definition handleUsageCountChange (value : string) (s : State) : State :=
  let c := policyConfig s in
  setPolicyConfig
    (mkPolicyConfig (type c) (consumers c) (connectors c) (startTime c)
       (endTime c) (Some (parsedCount value))) s.

(** The body of the [useEffect] with dependencies
    [[selectedDataset, policyConfig]]. *)
Definition policyEffect (s : State) : JS State :=
  match selectedDataset s with
  | Some d =>
      let ids := generateIDSPolicy d (policyConfig s) in
      odrl <- generateODRLPolicy d (policyConfig s) ;;
      ret (mkState (datasets s) (selectedDataset s) (policyType s)
             (policyConfig s) ids odrl)
  | None => ret s
  end.

(** The state of the first render, over the catalog [resources].  Later
    renders evaluate [convertToDatasets()] again and [useState] discards
    the result: only the cursor of the random source moves, which no
    later step depends on. *)
Definition initialConfig : PolicyConfig :=
  mkPolicyConfig restrict_consumer (Some []) (Some []) (Some "") (Some "")
    (Some 1).

Definition initialState (resources : list (Z * string * string)) : JS State :=
  ds <- convertToDatasets resources ;;
  ret (mkState ds None restrict_consumer initialConfig "" "").

(** What the user can do to the form.  A dataset is picked among the
    options of the dataset selector, which are [datasets], or cleared. *)
Inductive event : Type :=
| SelectDataset (v : option Dataset)
| ChangePolicyType (newType : PolicyType)
| ChangeConsumers (newValue : list string)
| ChangeConnectors (newValue : list string)
| ChangeTime (field : TimeField) (value : string)
| ChangeUsageCount (value : string).

Definition handle (e : event) (s : State) : State :=
  match e with
  | SelectDataset v => setSelectedDataset v s
  | ChangePolicyType t => handlePolicyTypeChange t s
  | ChangeConsumers l => handleConsumersChange l s
  | ChangeConnectors l => handleConnectorsChange l s
  | ChangeTime f v => handleTimeChange f v s
  | ChangeUsageCount v => handleUsageCountChange v s
  end.

Definition offered (e : event) (s : State) : Prop :=
  match e with
  | SelectDataset (Some d) => In d (datasets s)
  | _ => True
  end.

(** One user action: the handler stores a new state (for every handler
    but the dataset selector a fresh [policyConfig] object), the component
    renders again and the effect runs, at whatever the clock then reads.
    A setter called with the value already stored starts no render; then
    nothing changes, which is no step at all. *)
Inductive step : State -> State -> Prop :=
| step_event (e : event) (s : State) (w : World) :
    offered e s -> step s (result (policyEffect (handle e s)) w).

Inductive reachable (resources : list (Z * string * string)) (w0 : World)
  : State -> Prop :=
| reachable_initial : reachable resources w0 (result (initialState resources) w0)
| reachable_step (s s' : State) :
    reachable resources w0 s -> step s s' -> reachable resources w0 s'.

(** ** What a configuration asks for

    The restriction a configuration imposes, read off the guards of the
    two generators: the variant with its first entry or its values when
    they pass the guard, and nothing otherwise. *)
Inductive restriction : Type :=
| Unrestricted
| OnlyConsumer (c : string)
| OnlyConnector (c : string)
| Within (st et : string)
| AtMost (n : Z).

Definition restriction_of (config : PolicyConfig) : restriction :=
  match type config with
  | restrict_consumer =>
      match consumers config with
      | Some (c0 :: _) => OnlyConsumer c0
      | _ => Unrestricted
      end
  | restrict_connector =>
      match connectors config with
      | Some (c0 :: _) => OnlyConnector c0
      | _ => Unrestricted
      end
  | time_limit =>
      if truthy_string (startTime config) && truthy_string (endTime config)
      then match startTime config, endTime config with
           | Some st, Some et => Within st et
           | _, _ => Unrestricted
           end
      else Unrestricted
  | usage_count =>
      if truthy_number (maxUsageCount config)
      then match maxUsageCount config with
           | Some n => AtMost n
           | None => Unrestricted
           end
      else Unrestricted
  end.

(** Restricting to the placeholder party is written exactly like no
    restriction; the placeholder differs between the two documents. *)
Definition IDS_placeholder : string := "http://example.com/party/data-consumer".
Definition ODRL_placeholder : string :=
  "http://example.com/ids/party/data-consumer".

Definition modulo_placeholder (placeholder : string) (r : restriction)
  : restriction :=
  match r with
  | OnlyConsumer c => if String.eqb c placeholder then Unrestricted else r
  | _ => r
  end.

(** ** Vocabulary of the statements *)

(** The parameters the active variant looks at are empty or absent. *)
Definition parameters_empty (config : PolicyConfig) : bool :=
  match type config with
  | restrict_consumer =>
      match consumers config with
      | Some (_ :: _) => false
      | _ => true
      end
  | restrict_connector =>
      match connectors config with
      | Some (_ :: _) => false
      | _ => true
      end
  | time_limit =>
      negb (truthy_string (startTime config))
      || negb (truthy_string (endTime config))
  | usage_count =>
      match maxUsageCount config with
      | Some _ => false
      | None => true
      end
  end.

(** Two configurations agree on their tag and on the parameters that tag
    looks at; every other field is free. *)
Definition same_relevant (c1 c2 : PolicyConfig) : Prop :=
  type c1 = type c2
  /\ match type c1 with
     | restrict_consumer => consumers c1 = consumers c2
     | restrict_connector => connectors c1 = connectors c2
     | time_limit => startTime c1 = startTime c2 /\ endTime c1 = endTime c2
     | usage_count => maxUsageCount c1 = maxUsageCount c2
     end.

(** The configurations and worlds the statements below are instantiated at. *)
Module Examples.

Definition weather : Dataset :=
  mkDataset 7 "Weather" "Hourly observations"
    "3f2a9c10-5b7e-4d21-9a3c-0e1f2a3b4c5d".

Definition blank : PolicyConfig :=
  mkPolicyConfig restrict_consumer (Some []) (Some []) (Some "") (Some "")
    (Some 1).

Definition twoConsumers : PolicyConfig :=
  mkPolicyConfig restrict_consumer (Some ["c1"; "c2"]) (Some []) (Some "")
    (Some "") (Some 1).

Definition firstHalf2024 : PolicyConfig :=
  mkPolicyConfig time_limit (Some ["c1"]) (Some []) (Some "2024-01-01T00:00")
    (Some "2024-06-01T00:00") (Some 1).

Definition fiveUses : PolicyConfig :=
  mkPolicyConfig usage_count (Some ["c1"; "c2"]) (Some ["k1"]) (Some "")
    (Some "") (Some 5).

Definition minusThree : PolicyConfig :=
mkPolicyConfig usage_count None None None None (Some (-3)).

Definition fiveUsesOtherwise : PolicyConfig :=
mkPolicyConfig usage_count None (Some ["k9"; "k1"]) (Some "2024-01-01T00:00")
  None (Some 5).

Definition noon : World :=
  mkWorld "2024-03-01T12:00:00.000Z"
    (fun i => (Z.of_nat (i * 7 mod 16) # 16) + (1 # 100))%Q 0.

Definition midnight : World :=
  mkWorld "2024-03-02T00:00:00.000Z" (fun _ => (1 # 2)%Q) 4.

Definition catalog : list (Z * string * string) :=
  [(1, "a", "A"); (2, "b", "B")].

Definition firstRecord : Dataset :=
  mkDataset 1 "a" "A" "88888888-8888-4888-8888-888888888888".

(** The state after picking the first record of [catalog]. *)
Abbreviation picked :=
  (result
     (policyEffect
        (handle (SelectDataset (Some firstRecord))
           (result (initialState catalog) midnight)))
     noon).

End Examples.

(** * Properties *)

(** ** Shared facts about the generators *)

Lemma ODRL_policy_unfold (dataset : Dataset) (config : PolicyConfig) (w : World) :
  result (ODRL.policy dataset config) w
  = ODRL.applyConfig config (ODRL.basePolicy (clock w) dataset).
Proof. reflexivity. Qed.

Lemma generateODRLPolicy_unfold (dataset : Dataset) (config : PolicyConfig)
  (w : World) :
  result (generateODRLPolicy dataset config) w
  = JSON_stringify (result (ODRL.policy dataset config) w).
Proof. reflexivity. Qed.

(** Whatever the configuration, the IDS document is the base document,
    the base document with [ids:consumer] overwritten, or the base document
    with a constraint list attached to its permission. *)
Lemma IDS_policy_shape (dataset : Dataset) (config : PolicyConfig) :
  IDS.policy dataset config = IDS.basePolicy dataset
  \/ (exists c0,
        IDS.policy dataset config
        = Obj.set "ids:consumer" (JString c0) (IDS.basePolicy dataset))
  \/ (exists cs,
        IDS.policy dataset config
        = IDS.setConstraint cs (IDS.basePolicy dataset)).
Proof.
  unfold IDS.policy. destruct (type config).
  - destruct (consumers config) as [[| c cs] |]; eauto.
  - destruct (connectors config) as [[| c cs] |]; eauto.
  - destruct (startTime config) as [st |], (endTime config) as [et |]; auto.
    destruct (truthy_string (Some st) && truthy_string (Some et)); eauto.
  - destruct (maxUsageCount config) as [n |]; auto.
    destruct (truthy_number (Some n)); eauto.
Qed.

Lemma ODRL_applyConfig_shape (config : PolicyConfig) (base : json) :
  ODRL.applyConfig config base = base
  \/ (exists a, ODRL.applyConfig config base = ODRL.setAssignee a base)
  \/ (exists cs, ODRL.applyConfig config base = ODRL.setConstraint cs base).
Proof.
  unfold ODRL.applyConfig. destruct (type config).
  - destruct (consumers config) as [[| c cs] |]; eauto.
  - destruct (connectors config) as [[| c cs] |]; eauto.
  - destruct (startTime config) as [st |], (endTime config) as [et |]; auto.
    destruct (truthy_string (Some st) && truthy_string (Some et)); eauto.
  - destruct (maxUsageCount config) as [n |]; auto.
    destruct (truthy_number (Some n)); eauto.
Qed.

(** Case analysis on the two shapes at once. *)
Ltac by_shape dataset config w :=
  rewrite ?ODRL_policy_unfold;
  let H := fresh "Hshape" in
  destruct (IDS_policy_shape dataset config) as [H | [[? H] | [? H]]];
  rewrite H; clear H;
  destruct (ODRL_applyConfig_shape config (ODRL.basePolicy (clock w) dataset))
    as [H | [[? H] | [? H]]];
  rewrite H; clear H.

(** The clock reading only ever sits in [dc:issued]. *)
Lemma ODRL_reissue (dataset : Dataset) (config : PolicyConfig) (t t' : string) :
  ODRL.applyConfig config (ODRL.basePolicy t dataset)
  = Obj.set "dc:issued" (JString t)
      (ODRL.applyConfig config (ODRL.basePolicy t' dataset)).
Proof.
  unfold ODRL.applyConfig. destruct (type config).
  - destruct (consumers config) as [[| c cs] |]; reflexivity.
  - destruct (connectors config) as [[| c cs] |]; reflexivity.
  - destruct (startTime config) as [st |], (endTime config) as [et |];
      try reflexivity.
    destruct (truthy_string (Some st) && truthy_string (Some et));
      reflexivity.
  - destruct (maxUsageCount config) as [n |]; try reflexivity.
    destruct (truthy_number (Some n)); reflexivity.
Qed.

(** *** The decimal printer prints the number *)

Lemma decimal_digit_char (d : Z) :
  0 <= d < 10 -> decimal_digit (digit_char d) = Some d.
Proof.
  intros Hd.
  assert (Hcases : d = 0 \/ d = 1 \/ d = 2 \/ d = 3 \/ d = 4 \/ d = 5
                   \/ d = 6 \/ d = 7 \/ d = 8 \/ d = 9) by lia.
  repeat (destruct Hcases as [-> | Hcases]; [reflexivity | ]).
  subst d. reflexivity.
Qed.

Lemma radix_digits_nonempty (radix : Z) (fuel : nat) :
  forall n c acc, radix_digits radix fuel n (String c acc) <> EmptyString.
Proof.
  induction fuel as [| fuel IH]; intros n c acc; cbn.
  - discriminate.
  - destruct (n / radix =? 0); [discriminate | apply IH].
Qed.

Lemma read_radix_digits (fuel : nat) :
  forall n acc,
    0 <= n < 2 ^ Z.of_nat (S fuel) ->
    read_digits 0 (radix_digits 10 (S fuel) n acc) = read_digits n acc.
Proof.
  induction fuel as [| fuel IH]; intros n acc Hn.
  - assert (Hsmall : n / 10 = 0) by (apply Z.div_small; cbn in Hn; lia).
    cbn [radix_digits]. rewrite Hsmall. cbn [Z.eqb read_digits].
    rewrite decimal_digit_char by (apply Z.mod_pos_bound; lia).
    f_equal. rewrite Z.mod_small by (cbn in Hn; lia). lia.
  - change (radix_digits 10 (S (S fuel)) n acc)
      with (let acc' := String (digit_char (n mod 10)) acc in
            if n / 10 =? 0 then acc'
            else radix_digits 10 (S fuel) (n / 10) acc').
    cbv zeta.
    assert (Hdm : n = 10 * (n / 10) + n mod 10) by (apply Z.div_mod; lia).
    assert (Hm : 0 <= n mod 10 < 10) by (apply Z.mod_pos_bound; lia).
    destruct (n / 10 =? 0) eqn:Hq.
    + apply Z.eqb_eq in Hq. cbn [read_digits].
      rewrite decimal_digit_char by exact Hm. f_equal. lia.
    + rewrite IH.
      * cbn [read_digits]. rewrite decimal_digit_char by exact Hm.
        f_equal. lia.
      * assert (Hpow : 2 ^ Z.of_nat (S (S fuel)) = 2 * 2 ^ Z.of_nat (S fuel)).
        { rewrite (Nat2Z.inj_succ (S fuel)). apply Z.pow_succ_r. lia. }
        split; [apply Z.div_pos; lia | ].
        apply Z.div_lt_upper_bound; lia.
Qed.

Lemma read_decimal_of_digits (s : string) (n : Z) :
  s <> EmptyString -> read_digits 0 s = Some n -> read_decimal s = Some n.
Proof.
  destruct s as [| c rest]; [congruence | ].
  intros _ Hread. unfold read_decimal.
  destruct (Ascii.eqb c "-") eqn:Hc; [ | exact Hread].
  apply Ascii.eqb_eq in Hc. subst c. discriminate Hread.
Qed.

Lemma log2_fuel (m : Z) :
  0 <= m -> m < 2 ^ Z.of_nat (S (Z.to_nat (Z.log2 m))).
Proof.
  intros Hm. rewrite Nat2Z.inj_succ, Z2Nat.id by apply Z.log2_nonneg.
  destruct (Z.eq_dec m 0) as [-> | Hnz]; [reflexivity | ].
  apply Z.log2_spec. lia.
Qed.

(** [Number_toString 10] is read back as the number it was given: the
    printed text is the decimal numeral of [n]. *)
Lemma read_decimal_Number_toString (n : Z) :
  read_decimal (Number_toString 10 n) = Some n.
Proof.
  unfold Number_toString. cbv zeta.
  pose proof (log2_fuel (Z.abs n) (Z.abs_nonneg n)) as Hfuel.
  pose proof (read_radix_digits (Z.to_nat (Z.log2 (Z.abs n))) (Z.abs n) ""
                (conj (Z.abs_nonneg n) Hfuel)) as Hread.
  cbn [read_digits] in Hread.
  destruct (n <? 0) eqn:Hneg.
  - apply Z.ltb_lt in Hneg.
    remember (radix_digits 10 (S (Z.to_nat (Z.log2 (Z.abs n)))) (Z.abs n) "")
      as body eqn:Hbody.
    assert (Hne : body <> EmptyString).
    { subst body. cbn [radix_digits].
      destruct (Z.abs n / 10 =? 0);
        [discriminate | apply radix_digits_nonempty]. }
    destruct body as [| c rest]; [congruence | ].
    unfold read_decimal.
    change (Ascii.eqb "-" "-") with true. cbv iota.
    rewrite Hread. cbn [option_map]. f_equal. lia.
  - apply Z.ltb_ge in Hneg.
    apply read_decimal_of_digits.
    + cbn [radix_digits].
      destruct (Z.abs n / 10 =? 0);
        [discriminate | apply radix_digits_nonempty].
    + rewrite Hread. f_equal. lia.
Qed.

Lemma digit_char_nonzero (d : Z) :
  0 < d < 10 -> digit_char d <> "0"%char.
Proof.
  intros Hd.
  assert (Hcases : d = 1 \/ d = 2 \/ d = 3 \/ d = 4 \/ d = 5
                   \/ d = 6 \/ d = 7 \/ d = 8 \/ d = 9) by lia.
  repeat (destruct Hcases as [-> | Hcases]; [discriminate | ]).
  subst d. discriminate.
Qed.

Lemma radix_digits_leading (fuel : nat) :
  forall n acc,
    0 < n < 2 ^ Z.of_nat (S fuel) ->
    exists c rest,
      radix_digits 10 (S fuel) n acc = String c rest /\ c <> "0"%char.
Proof.
  induction fuel as [| fuel IH]; intros n acc Hn.
  - cbn [radix_digits].
    assert (Hsmall : n / 10 = 0) by (apply Z.div_small; cbn in Hn; lia).
    rewrite Hsmall. cbn [Z.eqb]. eexists _, _. split; [reflexivity | ].
    apply digit_char_nonzero. rewrite Z.mod_small; cbn in Hn; lia.
  - change (radix_digits 10 (S (S fuel)) n acc)
      with (let acc' := String (digit_char (n mod 10)) acc in
            if n / 10 =? 0 then acc'
            else radix_digits 10 (S fuel) (n / 10) acc').
    cbv zeta.
    assert (Hdm : n = 10 * (n / 10) + n mod 10) by (apply Z.div_mod; lia).
    assert (Hm : 0 <= n mod 10 < 10) by (apply Z.mod_pos_bound; lia).
    destruct (n / 10 =? 0) eqn:Hq.
    + apply Z.eqb_eq in Hq. eexists _, _. split; [reflexivity | ].
      apply digit_char_nonzero. lia.
    + apply Z.eqb_neq in Hq. apply IH.
      assert (Hpow : 2 ^ Z.of_nat (S (S fuel)) = 2 * 2 ^ Z.of_nat (S fuel)).
      { rewrite (Nat2Z.inj_succ (S fuel)). apply Z.pow_succ_r. lia. }
      assert (0 <= n / 10) by (apply Z.div_pos; lia).
      split; [lia | apply Z.div_lt_upper_bound; lia].
Qed.

(** A positive number is printed without sign and without leading zero. *)
Lemma Number_toString_positive (n : Z) :
  0 < n ->
  read_digits 0 (Number_toString 10 n) = Some n
  /\ exists c rest, Number_toString 10 n = String c rest /\ c <> "0"%char.
Proof.
  intros Hn. unfold Number_toString. cbv zeta.
  assert (Hpos : (n <? 0) = false) by (apply Z.ltb_ge; lia).
  rewrite Hpos, (Z.abs_eq n) by lia.
  pose proof (log2_fuel n ltac:(lia)) as Hfuel.
  split.
  - rewrite read_radix_digits by lia. reflexivity.
  - apply radix_digits_leading. lia.
Qed.

(** A negative number is printed as a minus sign before its magnitude. *)
Lemma Number_toString_negative (n : Z) :
  n < 0 ->
  Number_toString 10 n = String "-"%char (Number_toString 10 (- n)).
Proof.
  intros Hn. unfold Number_toString. cbv zeta.
  assert (Hneg : (n <? 0) = true) by (apply Z.ltb_lt; lia).
  assert (Hpos : (- n <? 0) = false) by (apply Z.ltb_ge; lia).
  rewrite Hneg, Hpos, Z.abs_opp. reflexivity.
Qed.

(** ** RestrictConsumer *)

(** C1.  With [type = restrict_consumer] and a non-empty [consumers] list,
    the IDS document's [ids:consumer] is the first identifier as a plain
    string and the ODRL permission's [assignee] is the first identifier.
    Nothing after the first identifier reaches either document: both
    documents (and both printed texts) are those of any other configuration
    with the same first identifier, and every string occurring in either
    document is the first identifier or a string of the base document, so
    a later identifier occurs in neither unless it is one of those. *)
Theorem restrict_consumer_first_only
  (dataset : Dataset) (config : PolicyConfig) (c0 : string)
  (others : list string) (w : World) :
  type config = restrict_consumer ->
  consumers config = Some (c0 :: others) ->
  Obj.get "ids:consumer" (IDS.policy dataset config) = Some (JString c0)
  /\ (exists p,
        Obj.first_of "permission" (result (ODRL.policy dataset config) w)
        = Some p
        /\ Obj.get "assignee" p = Some (JString c0))
  /\ (forall config' others',
        type config' = restrict_consumer ->
        consumers config' = Some (c0 :: others') ->
        IDS.policy dataset config' = IDS.policy dataset config
        /\ generateIDSPolicy dataset config' = generateIDSPolicy dataset config
        /\ result (ODRL.policy dataset config') w
           = result (ODRL.policy dataset config) w
        /\ result (generateODRLPolicy dataset config') w
           = result (generateODRLPolicy dataset config) w)
  /\ (forall s,
        In s (strings_of (IDS.policy dataset config)) ->
        s = c0 \/ In s (strings_of (IDS.basePolicy dataset)))
  /\ (forall s,
        In s (strings_of (result (ODRL.policy dataset config) w)) ->
        s = c0 \/ In s (strings_of (ODRL.basePolicy (clock w) dataset)))
  /\ (forall s,
        In s others ->
        s <> c0 ->
        ~ In s (strings_of (IDS.basePolicy dataset)) ->
        ~ In s (strings_of (ODRL.basePolicy (clock w) dataset)) ->
        ~ In s (strings_of (IDS.policy dataset config))
        /\ ~ In s (strings_of (result (ODRL.policy dataset config) w))).
Proof.
  intros Hty Hcs.
  assert (Hstr_ids : forall s,
             In s (strings_of (Obj.set "ids:consumer" (JString c0)
                                 (IDS.basePolicy dataset))) ->
             s = c0 \/ In s (strings_of (IDS.basePolicy dataset))).
  { intros s. cbn -[String.append]. intros Hin.
    repeat (destruct Hin as [Hin | Hin];
            [subst s; first [ left; reflexivity | right; tauto ] | ]).
    contradiction. }
  assert (Hstr_odrl : forall s,
             In s (strings_of (ODRL.setAssignee c0
                                 (ODRL.basePolicy (clock w) dataset))) ->
             s = c0 \/ In s (strings_of (ODRL.basePolicy (clock w) dataset))).
  { intros s. cbn -[String.append]. intros Hin.
    repeat (destruct Hin as [Hin | Hin];
            [subst s; first [ left; reflexivity | right; tauto ] | ]).
    contradiction. }
  assert (Hids : IDS.policy dataset config
                 = Obj.set "ids:consumer" (JString c0) (IDS.basePolicy dataset)).
  { unfold IDS.policy. now rewrite Hty, Hcs. }
  assert (Hodrl : result (ODRL.policy dataset config) w
                  = ODRL.setAssignee c0 (ODRL.basePolicy (clock w) dataset)).
  { rewrite ODRL_policy_unfold. unfold ODRL.applyConfig. now rewrite Hty, Hcs. }
  split; [ | split; [ | split; [ | split; [ | split]]]].
  - rewrite Hids. reflexivity.
  - rewrite Hodrl. eexists. split; reflexivity.
  - intros config' others' Hty' Hcs'.
    rewrite !generateODRLPolicy_unfold, !ODRL_policy_unfold.
    unfold generateIDSPolicy, IDS.policy, ODRL.applyConfig.
    rewrite Hty, Hcs, Hty', Hcs'. repeat split.
  - intros s. rewrite Hids. apply Hstr_ids.
  - intros s. rewrite Hodrl. apply Hstr_odrl.
  - intros s _ Hne Hnids Hnodrl. rewrite Hids, Hodrl. split; intros Hin.
    + destruct (Hstr_ids _ Hin); tauto.
    + destruct (Hstr_odrl _ Hin); tauto.
Qed.

Lemma restrict_consumer_first_only_witness :
  Obj.get "ids:consumer" (IDS.policy Examples.weather Examples.twoConsumers)
  = Some (JString "c1").
Proof.
  exact (proj1 (restrict_consumer_first_only Examples.weather
                  Examples.twoConsumers "c1" ["c2"] Examples.noon
                  eq_refl eq_refl)).
Defined.

(** ** TimeWindow *)

(** C2.  With [type = time_limit] and non-empty [startTime] and [endTime],
    whatever their order, the single IDS permission carries exactly the
    two constraints AFTER [startTime] then BEFORE [endTime], both on
    [idsc:POLICY_EVALUATION_TIME] with datatype [xsd:dateTimeStamp], and
    the single ODRL permission carries exactly the two constraints gteq
    [startTime] then lteq [endTime], both on [dateTime] with datatype
    [xsd:dateTime]; the two strings are carried verbatim. *)
Theorem time_limit_constraints
  (dataset : Dataset) (config : PolicyConfig) (st et : string) (w : World) :
  type config = time_limit ->
  startTime config = Some st ->
  endTime config = Some et ->
  st <> EmptyString ->
  et <> EmptyString ->
  (exists p,
      Obj.get "ids:permission" (IDS.policy dataset config) = Some (JArray [p])
      /\ Obj.get "ids:constraint" p
         = Some (JArray
             [JObject
                [("@type", JString "ids:Constraint");
                 ("ids:leftOperand",
                   JObject [("@id", JString "idsc:POLICY_EVALUATION_TIME")]);
                 ("ids:operator", JObject [("@id", JString "idsc:AFTER")]);
                 ("ids:rightOperand",
                   JArray [JObject [("@value", JString st);
                                    ("@type", JString "xsd:dateTimeStamp")]])];
              JObject
                [("@type", JString "ids:Constraint");
                 ("ids:leftOperand",
                   JObject [("@id", JString "idsc:POLICY_EVALUATION_TIME")]);
                 ("ids:operator", JObject [("@id", JString "idsc:BEFORE")]);
                 ("ids:rightOperand",
                   JArray [JObject [("@value", JString et);
                                    ("@type", JString "xsd:dateTimeStamp")]])]]))
  /\ (exists p,
      Obj.get "permission" (result (ODRL.policy dataset config) w)
      = Some (JArray [p])
      /\ Obj.get "constraint" p
         = Some (JArray
             [JObject
                [("leftOperand", JString "dateTime");
                 ("operator", JString "gteq");
                 ("rightOperand",
                   JObject [("@value", JString st);
                            ("@type", JString "xsd:dateTime")])];
              JObject
                [("leftOperand", JString "dateTime");
                 ("operator", JString "lteq");
                 ("rightOperand",
                   JObject [("@value", JString et);
                            ("@type", JString "xsd:dateTime")])]])).
Proof.
  intros Hty Hst Het Hs He.
  destruct st as [| a st']; [congruence | ].
  destruct et as [| b et']; [congruence | ].
  split.
  - unfold IDS.policy. rewrite Hty, Hst, Het. cbn [truthy_string andb].
    eexists. split; reflexivity.
  - rewrite ODRL_policy_unfold. unfold ODRL.applyConfig.
    rewrite Hty, Hst, Het. cbn [truthy_string andb].
    eexists. split; reflexivity.
Qed.

Lemma time_limit_constraints_witness :
  exists p,
    Obj.get "ids:permission" (IDS.policy Examples.weather Examples.firstHalf2024)
    = Some (JArray [p])
    /\ Obj.get "ids:constraint" p
       = Some (JArray
           [JObject
              [("@type", JString "ids:Constraint");
               ("ids:leftOperand",
                 JObject [("@id", JString "idsc:POLICY_EVALUATION_TIME")]);
               ("ids:operator", JObject [("@id", JString "idsc:AFTER")]);
               ("ids:rightOperand",
                 JArray [JObject [("@value", JString "2024-01-01T00:00");
                                  ("@type", JString "xsd:dateTimeStamp")]])];
            JObject
              [("@type", JString "ids:Constraint");
               ("ids:leftOperand",
                 JObject [("@id", JString "idsc:POLICY_EVALUATION_TIME")]);
               ("ids:operator", JObject [("@id", JString "idsc:BEFORE")]);
               ("ids:rightOperand",
                 JArray [JObject [("@value", JString "2024-06-01T00:00");
                                  ("@type", JString "xsd:dateTimeStamp")]])]]).
Proof.
  refine (proj1 (time_limit_constraints Examples.weather Examples.firstHalf2024
                   "2024-01-01T00:00" "2024-06-01T00:00" Examples.noon
                   eq_refl eq_refl eq_refl _ _)); discriminate.
Defined.

(** ** UsageCount *)

(** C3.  With [type = usage_count] and a positive integer [maxUsageCount]
    [n], the single IDS permission carries exactly one constraint, on
    [idsc:COUNT] with operator [idsc:LTEQ], whose right operand is the
    string that prints [n] in decimal (digits only, no leading zero, read
    back as [n]) with datatype [xsd:double]; the single ODRL permission
    carries exactly one constraint, on [count] with operator [lteq], whose
    right operand is the number [n] itself. *)
Theorem usage_count_constraint
  (dataset : Dataset) (config : PolicyConfig) (n : Z) (w : World) :
  type config = usage_count ->
  maxUsageCount config = Some n ->
  0 < n <= MAX_SAFE_INTEGER ->
  (exists p,
      Obj.get "ids:permission" (IDS.policy dataset config) = Some (JArray [p])
      /\ Obj.get "ids:constraint" p
         = Some (JArray
             [JObject
                [("@type", JString "ids:Constraint");
                 ("ids:leftOperand", JObject [("@id", JString "idsc:COUNT")]);
                 ("ids:operator", JObject [("@id", JString "idsc:LTEQ")]);
                 ("ids:rightOperand",
                   JArray [JObject [("@value", JString (Number_toString 10 n));
                                    ("@type", JString "xsd:double")]])]]))
  /\ read_digits 0 (Number_toString 10 n) = Some n
  /\ (exists c rest, Number_toString 10 n = String c rest /\ c <> "0"%char)
  /\ (exists p,
      Obj.get "permission" (result (ODRL.policy dataset config) w)
      = Some (JArray [p])
      /\ Obj.get "constraint" p
         = Some (JArray
             [JObject
                [("leftOperand", JString "count");
                 ("operator", JString "lteq");
                 ("rightOperand", JNumber n)]])).
Proof.
  intros Hty Hn [Hpos _].
  assert (Htruthy : truthy_number (Some n) = true).
  { cbn. apply negb_true_iff, Z.eqb_neq. lia. }
  destruct (Number_toString_positive n Hpos) as [Hread Hlead].
  repeat split; try assumption.
  - unfold IDS.policy. rewrite Hty, Hn, Htruthy.
    eexists. split; reflexivity.
  - rewrite ODRL_policy_unfold. unfold ODRL.applyConfig.
    rewrite Hty, Hn, Htruthy. eexists. split; reflexivity.
Qed.

Lemma usage_count_constraint_witness :
  exists p,
    Obj.get "ids:permission" (IDS.policy Examples.weather Examples.fiveUses)
    = Some (JArray [p])
    /\ Obj.get "ids:constraint" p
       = Some (JArray
           [JObject
              [("@type", JString "ids:Constraint");
               ("ids:leftOperand", JObject [("@id", JString "idsc:COUNT")]);
               ("ids:operator", JObject [("@id", JString "idsc:LTEQ")]);
               ("ids:rightOperand",
                 JArray [JObject [("@value", JString (Number_toString 10 5));
                                  ("@type", JString "xsd:double")]])]]).
Proof.
  refine (proj1 (usage_count_constraint Examples.weather Examples.fiveUses 5
                   Examples.noon eq_refl eq_refl _)).
  unfold MAX_SAFE_INTEGER. lia.
Defined.

Example Number_toString_5 : Number_toString 10 5 = "5".
Proof. reflexivity. Qed.

(** ** Empty parameters *)

(** C4.  When the parameters of the active variant are empty or absent,
    both generators return the base document itself: the IDS
    [ids:consumer] and the ODRL [assignee] are the placeholder URIs and
    neither permission has a constraint field.  Both generators are total
    functions, so a document is produced in every case. *)
Theorem empty_parameters_base_document
  (dataset : Dataset) (config : PolicyConfig) (w : World) :
  parameters_empty config = true ->
  IDS.policy dataset config = IDS.basePolicy dataset
  /\ generateIDSPolicy dataset config = JSON_stringify (IDS.basePolicy dataset)
  /\ result (ODRL.policy dataset config) w
     = ODRL.basePolicy (clock w) dataset
  /\ result (generateODRLPolicy dataset config) w
     = JSON_stringify (ODRL.basePolicy (clock w) dataset)
  /\ Obj.get "ids:consumer" (IDS.policy dataset config)
     = Some (JString "http://example.com/party/data-consumer")
  /\ (exists p,
        Obj.get "ids:permission" (IDS.policy dataset config)
        = Some (JArray [p])
        /\ Obj.get "ids:constraint" p = None)
  /\ (exists p,
        Obj.get "permission" (result (ODRL.policy dataset config) w)
        = Some (JArray [p])
        /\ Obj.get "constraint" p = None
        /\ Obj.get "assignee" p
           = Some (JString "http://example.com/ids/party/data-consumer")).
Proof.
  intros Hempty.
  assert (Hids : IDS.policy dataset config = IDS.basePolicy dataset).
  { unfold parameters_empty in Hempty. unfold IDS.policy.
    destruct (type config).
    - destruct (consumers config) as [[| c cs] |]; congruence.
    - destruct (connectors config) as [[| c cs] |]; congruence.
    - destruct (startTime config) as [[| a st] |],
               (endTime config) as [[| b et] |];
        cbn in Hempty |- *; congruence.
    - destruct (maxUsageCount config); congruence. }
  assert (Hodrl : result (ODRL.policy dataset config) w
                  = ODRL.basePolicy (clock w) dataset).
  { unfold parameters_empty in Hempty.
    rewrite ODRL_policy_unfold. unfold ODRL.applyConfig.
    destruct (type config).
    - destruct (consumers config) as [[| c cs] |]; congruence.
    - destruct (connectors config) as [[| c cs] |]; congruence.
    - destruct (startTime config) as [[| a st] |],
               (endTime config) as [[| b et] |];
        cbn in Hempty |- *; congruence.
    - destruct (maxUsageCount config); congruence. }
  rewrite generateODRLPolicy_unfold. unfold generateIDSPolicy.
  rewrite Hids, Hodrl.
  repeat split.
  - eexists. split; reflexivity.
  - eexists. repeat split; reflexivity.
Qed.

Lemma empty_parameters_base_document_witness :
  IDS.policy Examples.weather Examples.blank = IDS.basePolicy Examples.weather.
Proof.
  exact (proj1 (empty_parameters_base_document Examples.weather Examples.blank
                  Examples.noon eq_refl)).
Defined.

(** ** Zero and negative usage counts *)

(** C9.  With [type = usage_count]: a [maxUsageCount] of [0] fails the
    truthiness guard and both generators return the base document; a
    negative [maxUsageCount] passes it and both generators attach the
    count constraint, the IDS one carrying the numeral of the negative
    value (a minus sign before the magnitude) and the ODRL one the
    negative number itself. *)
Theorem usage_count_zero_and_negative
  (dataset : Dataset) (config : PolicyConfig) (n : Z) (w : World) :
  type config = usage_count ->
  maxUsageCount config = Some n ->
  - MAX_SAFE_INTEGER <= n <= 0 ->
  (n = 0 ->
     IDS.policy dataset config = IDS.basePolicy dataset
     /\ result (ODRL.policy dataset config) w
        = ODRL.basePolicy (clock w) dataset)
  /\ (n < 0 ->
       (exists p,
          Obj.get "ids:permission" (IDS.policy dataset config)
          = Some (JArray [p])
          /\ Obj.get "ids:constraint" p
             = Some (JArray
                 [JObject
                    [("@type", JString "ids:Constraint");
                     ("ids:leftOperand",
                       JObject [("@id", JString "idsc:COUNT")]);
                     ("ids:operator", JObject [("@id", JString "idsc:LTEQ")]);
                     ("ids:rightOperand",
                       JArray
                         [JObject
                            [("@value", JString (Number_toString 10 n));
                             ("@type", JString "xsd:double")]])]]))
       /\ Number_toString 10 n = String "-"%char (Number_toString 10 (- n))
       /\ read_decimal (Number_toString 10 n) = Some n
       /\ (exists p,
            Obj.get "permission" (result (ODRL.policy dataset config) w)
            = Some (JArray [p])
            /\ Obj.get "constraint" p
               = Some (JArray
                   [JObject
                      [("leftOperand", JString "count");
                       ("operator", JString "lteq");
                       ("rightOperand", JNumber n)]]))).
Proof.
  intros Hty Hn _. split.
  - intros ->. rewrite ODRL_policy_unfold.
    unfold IDS.policy, ODRL.applyConfig. rewrite Hty, Hn. split; reflexivity.
  - intros Hneg.
    assert (Htruthy : truthy_number (Some n) = true).
    { cbn. apply negb_true_iff, Z.eqb_neq. lia. }
    repeat split.
    + unfold IDS.policy. rewrite Hty, Hn, Htruthy.
      eexists. split; reflexivity.
    + apply Number_toString_negative, Hneg.
    + apply read_decimal_Number_toString.
    + rewrite ODRL_policy_unfold. unfold ODRL.applyConfig.
      rewrite Hty, Hn, Htruthy. eexists. split; reflexivity.
Qed.

Lemma usage_count_zero_and_negative_witness :
  exists p,
    Obj.get "permission"
      (result (ODRL.policy Examples.weather Examples.minusThree) Examples.noon)
    = Some (JArray [p])
    /\ Obj.get "constraint" p
       = Some (JArray
           [JObject
              [("leftOperand", JString "count");
               ("operator", JString "lteq");
               ("rightOperand", JNumber (-3))]]).
Proof.
  refine (proj2 (proj2 (proj2
            (proj2 (usage_count_zero_and_negative Examples.weather
                      Examples.minusThree (-3) Examples.noon
                      eq_refl eq_refl _) _)))).
  - unfold MAX_SAFE_INTEGER. lia.
  - lia.
Defined.

Example Number_toString_minus_3 : Number_toString 10 (-3) = "-3".
Proof. reflexivity. Qed.

(** ** Recompilation *)

(** C5.  Two invocations on the same dataset and configuration, in worlds
    that may differ in clock and random source: the IDS generator returns
    the same text; the ODRL document of one invocation is the document of
    the other with [dc:issued] set to its own clock reading, so the two
    agree once [dc:issued] is left out, and the printed texts agree when
    the clock readings do.  Neither invocation changes the world. *)
Theorem recompilation
  (dataset : Dataset) (config : PolicyConfig) (w1 w2 : World) :
  result (invokeIDS dataset config) w1 = result (invokeIDS dataset config) w2
  /\ result (ODRL.policy dataset config) w1
     = Obj.set "dc:issued" (JString (clock w1))
         (result (ODRL.policy dataset config) w2)
  /\ Obj.without "dc:issued" (result (ODRL.policy dataset config) w1)
     = Obj.without "dc:issued" (result (ODRL.policy dataset config) w2)
  /\ Obj.keys (result (ODRL.policy dataset config) w1)
     = Obj.keys (result (ODRL.policy dataset config) w2)
  /\ Obj.get "dc:issued" (result (ODRL.policy dataset config) w1)
     = Some (JString (clock w1))
  /\ result (generateODRLPolicy dataset config) w1
     = JSON_stringify
         (Obj.set "dc:issued" (JString (clock w1))
            (result (ODRL.policy dataset config) w2))
  /\ snd (invokeIDS dataset config w1) = w1
  /\ snd (generateODRLPolicy dataset config w1) = w1.
Proof.
  rewrite generateODRLPolicy_unfold, !ODRL_policy_unfold.
  rewrite (ODRL_reissue dataset config (clock w1) (clock w2)).
  destruct (ODRL_applyConfig_shape config (ODRL.basePolicy (clock w2) dataset))
    as [H | [[a H] | [cs H]]]; rewrite H; repeat split.
Qed.

(** ** Irrelevant fields *)

(** C6.  Two configurations with the same tag and the same parameters for
    that tag, whatever their other fields, give the same IDS document and
    text, and ODRL documents that differ at most in [dc:issued]: in one
    world they are equal, across worlds one is the other with [dc:issued]
    set to its own clock reading. *)
Theorem irrelevant_fields_ignored
  (dataset : Dataset) (c1 c2 : PolicyConfig) (w1 w2 : World) :
  same_relevant c1 c2 ->
  IDS.policy dataset c1 = IDS.policy dataset c2
  /\ generateIDSPolicy dataset c1 = generateIDSPolicy dataset c2
  /\ result (ODRL.policy dataset c1) w1 = result (ODRL.policy dataset c2) w1
  /\ result (generateODRLPolicy dataset c1) w1
     = result (generateODRLPolicy dataset c2) w1
  /\ result (ODRL.policy dataset c1) w1
     = Obj.set "dc:issued" (JString (clock w1))
         (result (ODRL.policy dataset c2) w2)
  /\ Obj.without "dc:issued" (result (ODRL.policy dataset c1) w1)
     = Obj.without "dc:issued" (result (ODRL.policy dataset c2) w2).
Proof.
  intros [Hty Hrel].
  assert (Hids : IDS.policy dataset c1 = IDS.policy dataset c2).
  { unfold IDS.policy. rewrite <- Hty.
    destruct (type c1); [ | | destruct Hrel as [Hst Het]; rewrite Hst, Het | ];
      try rewrite Hrel; reflexivity. }
  assert (Hodrl : forall base,
             ODRL.applyConfig c1 base = ODRL.applyConfig c2 base).
  { intros base. unfold ODRL.applyConfig. rewrite <- Hty.
    destruct (type c1); [ | | destruct Hrel as [Hst Het]; rewrite Hst, Het | ];
      try rewrite Hrel; reflexivity. }
  rewrite !generateODRLPolicy_unfold, !ODRL_policy_unfold.
  unfold generateIDSPolicy. rewrite Hids, !Hodrl.
  rewrite (ODRL_reissue dataset c2 (clock w1) (clock w2)).
  destruct (ODRL_applyConfig_shape c2 (ODRL.basePolicy (clock w2) dataset))
    as [H | [[a H] | [cs H]]]; rewrite H; repeat split.
Qed.

Lemma irrelevant_fields_ignored_witness :
  generateIDSPolicy Examples.weather Examples.fiveUses
  = generateIDSPolicy Examples.weather Examples.fiveUsesOtherwise.
Proof.
  refine (proj1 (proj2 (irrelevant_fields_ignored Examples.weather
                          Examples.fiveUses Examples.fiveUsesOtherwise
                          Examples.noon Examples.midnight _))).
  split; reflexivity.
Defined.

(** ** Identifiers derived from the dataset *)

(** C8.  For every dataset and configuration, the IDS [@id] is
    ["https://w3id.org/idsa/autogen/contract/"] followed by [dataset.uuid],
    the ODRL [uid] is ["http://example.com/policy/"] followed by
    [dataset.uuid], and the target of the single permission of either
    document ends in [dataset.uuid], all verbatim. *)
Theorem uuid_embedded_verbatim
  (dataset : Dataset) (config : PolicyConfig) (w : World) :
  Obj.get "@id" (IDS.policy dataset config)
  = Some (JString ("https://w3id.org/idsa/autogen/contract/" ++ uuid dataset))
  /\ Obj.get "uid" (result (ODRL.policy dataset config) w)
     = Some (JString ("http://example.com/policy/" ++ uuid dataset))
  /\ (exists p,
        Obj.get "ids:permission" (IDS.policy dataset config)
        = Some (JArray [p])
        /\ Obj.get "ids:target" p
           = Some (JObject
                     [("@id",
                        JString ("http://example.com/ids/target/"
                                   ++ uuid dataset))]))
  /\ (exists p,
        Obj.get "permission" (result (ODRL.policy dataset config) w)
        = Some (JArray [p])
        /\ Obj.get "target" p
           = Some (JString ("http://example.com/ids/data/" ++ uuid dataset))).
Proof.
  by_shape dataset config w.
  all: repeat split; eexists; split; reflexivity.
Qed.

(** ** Frame *)

(** C10.  For every dataset and configuration of any variant, the fields
    of the skeleton other than [ids:consumer] / [assignee] and the
    constraint list have their base values: in the IDS document
    [@context], [@type], [@id], [profile], [ids:provider] and, in its
    permission, [ids:target] and [ids:action]; in the ODRL document
    [@context], [@type], [uid], [profile], [dc:creator], [dc:description]
    and, in its permission, [target], [assigner] and [action].  The
    permission list of either document has exactly one element, and the
    top-level keys are those of the base document, in the same order. *)
Theorem skeleton_frame
  (dataset : Dataset) (config : PolicyConfig) (w : World) :
  let ids := IDS.policy dataset config in
  let odrl := result (ODRL.policy dataset config) w in
  (Obj.get "@context" ids
   = Some (JObject [("ids", JString "https://w3id.org/idsa/core/");
                    ("idsc", JString "https://w3id.org/idsa/code/")])
   /\ Obj.get "@type" ids = Some (JString "ids:ContractAgreement")
   /\ Obj.get "@id" ids
      = Some (JString ("https://w3id.org/idsa/autogen/contract/"
                         ++ uuid dataset))
   /\ Obj.get "profile" ids = Some (JString "http://example.com/ids-profile")
   /\ Obj.get "ids:provider" ids
      = Some (JString "http://example.com/party/data-provider")
   /\ Obj.keys ids = Obj.keys (IDS.basePolicy dataset)
   /\ exists p,
       Obj.get "ids:permission" ids = Some (JArray [p])
       /\ Obj.get "ids:target" p
          = Some (JObject
                    [("@id",
                       JString ("http://example.com/ids/target/"
                                  ++ uuid dataset))])
       /\ Obj.get "ids:action" p
          = Some (JArray [JObject [("@id", JString "idsc:USE")]]))
  /\ (Obj.get "@context" odrl
      = Some (JArray
                [JString "http://www.w3.org/ns/odrl.jsonld";
                 JObject [("dc", JString "http://purl.org/dc/terms/");
                          ("ids", JString "https://w3id.org/idsa/core/");
                          ("idsc", JString "https://w3id.org/idsa/code/")]])
      /\ Obj.get "@type" odrl = Some (JString "Agreement")
      /\ Obj.get "uid" odrl
         = Some (JString ("http://example.com/policy/" ++ uuid dataset))
      /\ Obj.get "profile" odrl
         = Some (JString "http://www.w3.org/ns/odrl/2/core")
      /\ Obj.get "dc:creator" odrl = Some (JString "Data Provider")
      /\ Obj.get "dc:description" odrl
         = Some (JString ("Policy for dataset: " ++ name dataset))
      /\ Obj.keys odrl = Obj.keys (ODRL.basePolicy (clock w) dataset)
      /\ exists p,
          Obj.get "permission" odrl = Some (JArray [p])
          /\ Obj.get "target" p
             = Some (JString ("http://example.com/ids/data/" ++ uuid dataset))
          /\ Obj.get "assigner" p
             = Some (JString "http://example.com/ids/party/data-provider")
          /\ Obj.get "action" p = Some (JString "use")).
Proof.
  cbv zeta. by_shape dataset config w.
  all: repeat split; eexists; repeat split.
Qed.

(** ** The identifier generator *)

Lemma nibble_of_draw (q : Q) :
  (0 <= q < 1)%Q -> 0 <= Z.lor (UUID.ToInt32 (q * 16)) 0 <= 15.
Proof.
  intros [Hlo Hhi]. rewrite Z.lor_0_r. unfold UUID.ToInt32, UUID.truncate.
  assert (Hnn : (0 <= q * 16)%Q).
  { apply Qmult_le_0_compat; [exact Hlo | discriminate]. }
  assert (Hlt : (q * 16 < 16)%Q).
  { change (16%Q) with (1 * 16)%Q at 2.
    apply Qmult_lt_r; [reflexivity | exact Hhi]. }
  destruct (Qle_bool_iff 0 (q * 16)) as [_ Hb]. rewrite (Hb Hnn).
  assert (H0 : 0 <= Qfloor (q * 16)).
  { change 0 with (Qfloor 0). apply Qfloor_resp_le, Hnn. }
  assert (H16 : Qfloor (q * 16) < 16).
  { rewrite Zlt_Qlt. eapply Qle_lt_trans; [apply Qfloor_le | exact Hlt]. }
  rewrite Z.mod_small by lia.
  destruct (Qfloor (q * 16) <? 2 ^ 31) eqn:Hc; [lia | ].
  apply Z.ltb_ge in Hc. lia.
Qed.

Lemma nibble_cases (r : Z) :
  0 <= r <= 15 ->
  r = 0 \/ r = 1 \/ r = 2 \/ r = 3 \/ r = 4 \/ r = 5 \/ r = 6 \/ r = 7
  \/ r = 8 \/ r = 9 \/ r = 10 \/ r = 11 \/ r = 12 \/ r = 13 \/ r = 14
  \/ r = 15.
Proof. lia. Qed.

Lemma hex_of_nibble (r : Z) :
  0 <= r <= 15 ->
  exists h,
    Number_toString 16 r = String h EmptyString /\ UUID.is_hex h = true.
Proof.
  intros Hr. pose proof (nibble_cases r Hr) as Hc.
  repeat (destruct Hc as [-> | Hc]; [eexists; split; reflexivity | ]).
  subst r. eexists; split; reflexivity.
Qed.

Lemma variant_of_nibble (r : Z) :
  0 <= r <= 15 ->
  exists h,
    Number_toString 16 (Z.lor (Z.land r 3) 8) = String h EmptyString
    /\ UUID.is_variant h = true.
Proof.
  intros Hr. pose proof (nibble_cases r Hr) as Hc.
  repeat (destruct Hc as [-> | Hc]; [eexists; split; reflexivity | ]).
  subst r. eexists; split; reflexivity.
Qed.

(** One call of the callback: one draw, one code unit. *)
Lemma replacer_spec (c : ascii) (w : World) :
  UUID.unit_interval w ->
  exists h,
    UUID.replacer c w
    = (String h EmptyString, mkWorld (clock w) (entropy w) (S (drawn w)))
    /\ (if Ascii.eqb c "x" then UUID.is_hex h else UUID.is_variant h) = true.
Proof.
  intros Hw. unfold UUID.replacer, bind, Math_random, ret.
  pose proof (nibble_of_draw _ (Hw (drawn w))) as Hr.
  destruct (Ascii.eqb c "x").
  - destruct (hex_of_nibble _ Hr) as [h [Hs Hh]].
    exists h. rewrite Hs. split; [reflexivity | exact Hh].
  - destruct (variant_of_nibble _ Hr) as [h [Hs Hh]].
    exists h. rewrite Hs. split; [reflexivity | exact Hh].
Qed.

Lemma replace_xy_conforms (t : string) :
  forall w,
    UUID.unit_interval w ->
    UUID.well_formed t = true ->
    UUID.conforms (UUID.slots t) (fst (UUID.replace_xy UUID.replacer t w))
    = true
    /\ snd (UUID.replace_xy UUID.replacer t w) = UUID.advance (UUID.draws t) w.
Proof.
  induction t as [| c t IH]; intros w Hw Hwf.
  - cbn. split; [reflexivity | ].
    unfold UUID.advance. rewrite Nat.add_0_r. destruct w; reflexivity.
  - cbn [UUID.well_formed] in Hwf. apply andb_true_iff in Hwf.
    destruct Hwf as [Hc Hwf].
    cbn [UUID.replace_xy UUID.slots UUID.draws].
    destruct (Ascii.eqb c "x" || Ascii.eqb c "y") eqn:Hxy.
    + destruct (replacer_spec c w Hw) as [h [Hrep Hh]].
      unfold bind. rewrite Hrep.
      set (w' := mkWorld (clock w) (entropy w) (S (drawn w))).
      assert (Hw' : UUID.unit_interval w') by exact Hw.
      destruct (IH w' Hw' Hwf) as [Hconf Hsnd].
      destruct (UUID.replace_xy UUID.replacer t w') as [out w''] eqn:Hrun.
      cbn [fst snd ret String.append UUID.conforms] in *.
      split.
      * rewrite Hconf, andb_true_r. unfold UUID.slot_of.
        destruct (Ascii.eqb c "x"); [exact Hh | ].
        cbn [orb] in Hxy. rewrite Hxy. exact Hh.
      * rewrite Hsnd. unfold UUID.advance, w'. cbn [clock entropy drawn].
        f_equal. lia.
    + destruct (IH w Hw Hwf) as [Hconf Hsnd].
      unfold bind.
      destruct (UUID.replace_xy UUID.replacer t w) as [out w''] eqn:Hrun.
      cbn [fst snd ret UUID.conforms] in *.
      split; [ | exact Hsnd].
      rewrite Hconf, andb_true_r.
      apply orb_false_iff in Hxy. destruct Hxy as [Hx Hy].
      unfold UUID.slot_of. rewrite Hx, Hy.
      unfold UUID.template_unit in Hc.
      cbn [list_ascii_of_string existsb] in Hc.
      rewrite Hx, Hy in Hc. cbn [orb] in Hc. rewrite orb_false_r in Hc.
      destruct (Ascii.eqb c "4") eqn:H4; [exact H4 | ].
      cbn [orb] in Hc. exact Hc.
Qed.

(** The clock is never read. *)
Lemma replacer_clock (c : ascii) (c1 c2 : string) (e : nat -> Q) (d : nat) :
  exists v,
    UUID.replacer c (mkWorld c1 e d) = (v, mkWorld c1 e (S d))
    /\ UUID.replacer c (mkWorld c2 e d) = (v, mkWorld c2 e (S d)).
Proof. eexists. split; reflexivity. Qed.

Lemma replace_xy_clock (t : string) (c1 c2 : string) (e : nat -> Q) :
  forall d,
    fst (UUID.replace_xy UUID.replacer t (mkWorld c1 e d))
    = fst (UUID.replace_xy UUID.replacer t (mkWorld c2 e d)).
Proof.
  induction t as [| c t IH]; intros d; [reflexivity | ].
  cbn [UUID.replace_xy].
  destruct (Ascii.eqb c "x" || Ascii.eqb c "y").
  - unfold bind.
    destruct (replacer_clock c c1 c2 e d) as [v [H1 H2]]. rewrite H1, H2.
    unfold ret. specialize (IH (S d)).
    destruct (UUID.replace_xy UUID.replacer t (mkWorld c1 e (S d))) as [o1 w1].
    destruct (UUID.replace_xy UUID.replacer t (mkWorld c2 e (S d))) as [o2 w2].
    cbn [fst] in *. now rewrite IH.
  - unfold bind, ret. specialize (IH d).
    destruct (UUID.replace_xy UUID.replacer t (mkWorld c1 e d)) as [o1 w1].
    destruct (UUID.replace_xy UUID.replacer t (mkWorld c2 e d)) as [o2 w2].
    cbn [fst] in *. now rewrite IH.
Qed.

Lemma conforms_length (l : list UUID.slot) :
  forall s, UUID.conforms l s = true -> String.length s = List.length l.
Proof.
  induction l as [| k l IH]; intros [| c s] H; cbn in H |- *;
    try discriminate; [reflexivity | ].
  apply andb_true_iff in H. destruct H as [_ H]. now rewrite (IH s H).
Qed.

Lemma conforms_at (l : list UUID.slot) :
  forall s i k,
    UUID.conforms l s = true ->
    nth_error l i = Some k ->
    exists c, String.get i s = Some c /\ UUID.slot_ok k c = true.
Proof.
  induction l as [| k0 l IH]; intros [| c s] i k H Hn; cbn in H;
    try discriminate.
  - destruct i; discriminate.
  - apply andb_true_iff in H. destruct H as [Hk H].
    destruct i as [| i]; cbn in Hn |- *.
    + injection Hn as <-. eauto.
    + eapply IH; eassumption.
Qed.

(** C7.  For every sequence of draws in [[0, 1)], [generateUUID] returns a
    string of 36 code units in the 8-4-4-4-12 layout of lower-case
    hexadecimal digits and hyphens, whose code unit 14 (first of the third
    group) is [4] and whose code unit 19 (first of the fourth group) is
    one of [8], [9], [a], [b].  It is a total function; it takes 31 draws
    from the random source, leaves the rest of the world as it was, and
    its result does not depend on the clock. *)
Theorem generateUUID_layout (w : World) :
  UUID.unit_interval w ->
  UUID.conforms UUID.layout (result generateUUID w) = true
  /\ String.length (result generateUUID w) = 36%nat
  /\ String.get 14 (result generateUUID w) = Some "4"%char
  /\ (exists c,
        String.get 19 (result generateUUID w) = Some c
        /\ (c = "8" \/ c = "9" \/ c = "a" \/ c = "b")%char)
  /\ snd (generateUUID w)
     = mkWorld (clock w) (entropy w) (drawn w + 31)
  /\ (forall t,
        result generateUUID (mkWorld t (entropy w) (drawn w))
        = result generateUUID w).
Proof.
  intros Hw. unfold result, generateUUID.
  destruct (replace_xy_conforms UUID.template w Hw eq_refl) as [Hconf Hsnd].
  change (UUID.slots UUID.template) with UUID.layout in Hconf.
  split; [ | split; [ | split; [ | split; [ | split]]]].
  - exact Hconf.
  - exact (conforms_length _ _ Hconf).
  - destruct (conforms_at _ _ 14%nat UUID.Version4 Hconf eq_refl)
      as [c [Hget Hok]].
    apply Ascii.eqb_eq in Hok. now subst c.
  - destruct (conforms_at _ _ 19%nat UUID.Variant Hconf eq_refl)
      as [c [Hget Hok]].
    exists c. split; [exact Hget | ].
    unfold UUID.slot_ok, UUID.is_variant in Hok.
    cbn [list_ascii_of_string existsb] in Hok.
    rewrite orb_false_r in Hok.
    repeat (apply orb_true_iff in Hok; destruct Hok as [Hok | Hok];
            [apply Ascii.eqb_eq in Hok; tauto | ]).
    apply Ascii.eqb_eq in Hok; tauto.
  - exact Hsnd.
  - intros t. destruct w as [c e d]. apply replace_xy_clock.
Qed.

Lemma generateUUID_layout_witness :
  UUID.conforms UUID.layout (result generateUUID Examples.midnight) = true.
Proof.
  refine (proj1 (generateUUID_layout Examples.midnight _)).
  intros i. split; [discriminate | reflexivity].
Defined.

Example generateUUID_noon :
  result generateUUID Examples.noon = "07e5c3a1-8f6d-44b2-907e-5c3a18f6d4b2".
Proof. vm_compute. reflexivity. Qed.

(** * Further properties of the code *)

(** ** The catalog and its identifiers *)

Lemma replacer_world (c : ascii) (w : World) :
  snd (UUID.replacer c w) = UUID.advance 1 w.
Proof.
  unfold UUID.replacer, bind, Math_random, ret, UUID.advance. cbn [snd].
  f_equal. lia.
Qed.

Lemma advance_advance (j k : nat) (w : World) :
  UUID.advance k (UUID.advance j w) = UUID.advance (j + k) w.
Proof. unfold UUID.advance. cbn [clock entropy drawn]. f_equal. lia. Qed.

Lemma advance_0 (w : World) : UUID.advance 0 w = w.
Proof. unfold UUID.advance. rewrite Nat.add_0_r. now destruct w. Qed.

(** Draws are taken whatever their values are. *)
Lemma replace_xy_world (t : string) :
  forall w,
    snd (UUID.replace_xy UUID.replacer t w) = UUID.advance (UUID.draws t) w.
Proof.
  induction t as [| c t IH]; intros w; cbn [UUID.replace_xy UUID.draws].
  - symmetry. apply advance_0.
  - destruct (Ascii.eqb c "x" || Ascii.eqb c "y").
    + unfold bind. pose proof (replacer_world c w) as Hr.
      destruct (UUID.replacer c w) as [v w1]. cbn [snd] in Hr. subst w1.
      specialize (IH (UUID.advance 1 w)).
      destruct (UUID.replace_xy UUID.replacer t (UUID.advance 1 w))
        as [out w2].
      cbn [snd ret] in *. rewrite IH. apply advance_advance.
    + unfold bind. specialize (IH w).
      destruct (UUID.replace_xy UUID.replacer t w) as [out w2].
      cbn [snd ret] in *. exact IH.
Qed.

Lemma generateUUID_world (w : World) :
  snd (generateUUID w) = UUID.advance 31 w.
Proof. apply (replace_xy_world UUID.template). Qed.

Lemma unit_interval_advance (k : nat) (w : World) :
  UUID.unit_interval w -> UUID.unit_interval (UUID.advance k w).
Proof. intros H. exact H. Qed.

Lemma convertToDatasets_cons (i : Z) (n d : string)
  (rest : list (Z * string * string)) (w : World) :
  convertToDatasets ((i, n, d) :: rest) w
  = (mkDataset i n d (result generateUUID w)
       :: result (convertToDatasets rest) (UUID.advance 31 w),
     snd (convertToDatasets rest (UUID.advance 31 w))).
Proof.
  cbn [convertToDatasets]. unfold bind, result.
  pose proof (generateUUID_world w) as Hw.
  destruct (generateUUID w) as [u w1]. cbn [fst snd] in *. subst w1.
  destruct (convertToDatasets rest (UUID.advance 31 w)) as [ds w2].
  reflexivity.
Qed.

Lemma convertToDatasets_spec
  (resources : list (Z * string * string)) (w : World) :
  UUID.unit_interval w ->
  map (fun d => (id d, name d, description d))
    (result (convertToDatasets resources) w)
  = resources
  /\ Forall (fun d => UUID.conforms UUID.layout (uuid d) = true)
       (result (convertToDatasets resources) w)
  /\ snd (convertToDatasets resources w)
     = UUID.advance (31 * List.length resources) w.
Proof.
  revert w. induction resources as [| [[i n] d] rest IH]; intros w Hw.
  - cbn. repeat split; [constructor | symmetry; apply advance_0].
  - unfold result. rewrite convertToDatasets_cons. cbn [fst snd map].
    destruct (IH (UUID.advance 31 w) (unit_interval_advance 31 w Hw))
      as (Hrec & Hall & Hsnd).
    cbn [id name description].
    split; [now rewrite Hrec | ]. split.
    + constructor; [ | exact Hall]. cbn [uuid].
      exact (proj1 (replace_xy_conforms UUID.template w Hw eq_refl)).
    + rewrite Hsnd, advance_advance. f_equal. cbn [List.length]. lia.
Qed.

(** X1.  [convertToDatasets] keeps the catalog records, in order and in
    number, and gives each one an identifier in the UUID layout; it takes
    31 draws per record. *)
Theorem convertToDatasets_records
  (resources : list (Z * string * string)) (w : World) :
  UUID.unit_interval w ->
  map (fun d => (id d, name d, description d))
    (result (convertToDatasets resources) w)
  = resources
  /\ Forall (fun d => UUID.conforms UUID.layout (uuid d) = true)
       (result (convertToDatasets resources) w)
  /\ snd (convertToDatasets resources w)
     = UUID.advance (31 * List.length resources) w.
Proof. apply convertToDatasets_spec. Qed.

Lemma convertToDatasets_records_witness :
  map (fun d => (id d, name d, description d))
    (result (convertToDatasets [(1, "a", "A"); (2, "b", "B")]) Examples.midnight)
  = [(1, "a", "A"); (2, "b", "B")].
Proof.
  refine (proj1 (convertToDatasets_records [(1, "a", "A"); (2, "b", "B")]
                   Examples.midnight _)).
  intros i. split; [discriminate | reflexivity].
Defined.

(** X2.  The [k]-th record gets the identifier [generateUUID] returns
    after [31 * k] draws: records use consecutive blocks of the random
    source, whatever the draws are. *)
Theorem convertToDatasets_blocks
  (resources : list (Z * string * string)) (w : World) :
  map uuid (result (convertToDatasets resources) w)
  = map (fun k => result generateUUID (UUID.advance (31 * k) w))
      (seq 0 (List.length resources)).
Proof.
  revert w. induction resources as [| [[i n] d] rest IH]; intros w.
  - reflexivity.
  - unfold result at 1. rewrite convertToDatasets_cons.
    cbn [fst map List.length seq uuid].
    rewrite advance_0. f_equal.
    rewrite IH, <- seq_shift, map_map.
    apply map_ext. intros k. rewrite advance_advance.
    do 2 f_equal. lia.
Qed.

Lemma ToInt32_comp (q1 q2 : Q) :
  (q1 == q2)%Q -> UUID.ToInt32 q1 = UUID.ToInt32 q2.
Proof.
  intros H. unfold UUID.ToInt32, UUID.truncate.
  rewrite (Qfloor_comp _ _ H), (Qceiling_comp _ _ H).
  assert (Hb : Qle_bool 0 q1 = Qle_bool 0 q2).
  { destruct (Qle_bool 0 q1) eqn:H1, (Qle_bool 0 q2) eqn:H2; try reflexivity.
    - apply Qle_bool_iff in H1. rewrite H in H1.
      apply Qle_bool_iff in H1. congruence.
    - apply Qle_bool_iff in H2. rewrite <- H in H2.
      apply Qle_bool_iff in H2. congruence. }
  now rewrite Hb.
Qed.

Lemma replacer_comp (c : ascii) (w1 w2 : World) :
  (entropy w1 (drawn w1) == entropy w2 (drawn w2))%Q ->
  fst (UUID.replacer c w1) = fst (UUID.replacer c w2).
Proof.
  intros H. unfold UUID.replacer, bind, Math_random, ret. cbn [fst].
  assert (H16 : (entropy w1 (drawn w1) * 16 == entropy w2 (drawn w2) * 16)%Q)
    by now rewrite H.
  now rewrite (ToInt32_comp _ _ H16).
Qed.

(** The text [replace_xy] returns is a function of the draws it takes. *)
Lemma replace_xy_footprint (t : string) :
  forall w1 w2,
    (forall i, (i < UUID.draws t)%nat ->
               (entropy w1 (drawn w1 + i) == entropy w2 (drawn w2 + i))%Q) ->
    fst (UUID.replace_xy UUID.replacer t w1)
    = fst (UUID.replace_xy UUID.replacer t w2).
Proof.
  induction t as [| c t IH]; intros w1 w2 H; [reflexivity | ].
  cbn [UUID.replace_xy UUID.draws] in *.
  destruct (Ascii.eqb c "x" || Ascii.eqb c "y").
  - unfold bind.
    assert (H0 : (entropy w1 (drawn w1) == entropy w2 (drawn w2))%Q).
    { specialize (H 0%nat ltac:(lia)). now rewrite !Nat.add_0_r in H. }
    pose proof (replacer_comp c w1 w2 H0) as Hfst.
    pose proof (replacer_world c w1) as Hs1.
    pose proof (replacer_world c w2) as Hs2.
    destruct (UUID.replacer c w1) as [v1 u1].
    destruct (UUID.replacer c w2) as [v2 u2].
    cbn [fst snd] in *. subst v2 u1 u2.
    assert (Hrest : forall i, (i < UUID.draws t)%nat ->
              (entropy (UUID.advance 1 w1) (drawn (UUID.advance 1 w1) + i)
               == entropy (UUID.advance 1 w2)
                    (drawn (UUID.advance 1 w2) + i))%Q).
    { intros i Hi. cbn [UUID.advance entropy drawn].
      specialize (H (S i) ltac:(lia)).
      replace (drawn w1 + 1 + i)%nat with (drawn w1 + S i)%nat by lia.
      replace (drawn w2 + 1 + i)%nat with (drawn w2 + S i)%nat by lia.
      exact H. }
    specialize (IH _ _ Hrest).
    destruct (UUID.replace_xy UUID.replacer t (UUID.advance 1 w1)) as [o1 x1].
    destruct (UUID.replace_xy UUID.replacer t (UUID.advance 1 w2)) as [o2 x2].
    cbn [fst ret] in *. now rewrite IH.
  - unfold bind. specialize (IH _ _ H).
    destruct (UUID.replace_xy UUID.replacer t w1) as [o1 x1].
    destruct (UUID.replace_xy UUID.replacer t w2) as [o2 x2].
    cbn [fst ret] in *. now rewrite IH.
Qed.

(** X3.  [generateUUID] reads nothing but the next 31 draws: two worlds
    whose next 31 draws are the same numbers, wherever their cursors and
    whatever their clocks, give the same identifier. *)
Theorem generateUUID_footprint (w1 w2 : World) :
  (forall i, (i < 31)%nat ->
             (entropy w1 (drawn w1 + i) == entropy w2 (drawn w2 + i))%Q) ->
  result generateUUID w1 = result generateUUID w2.
Proof.
  intros H. unfold result, generateUUID. apply replace_xy_footprint. exact H.
Qed.

Lemma generateUUID_footprint_witness :
  result generateUUID Examples.midnight
  = result generateUUID (mkWorld "later" (fun _ => (2 # 4)%Q) 100).
Proof.
  apply generateUUID_footprint. intros i _. reflexivity.
Defined.

Lemma periodic_uuids (resources : list (Z * string * string)) :
  forall w,
    (forall i, (entropy w (i + 31) == entropy w i)%Q) ->
    Forall (fun d => uuid d = result generateUUID w)
      (result (convertToDatasets resources) w).
Proof.
  induction resources as [| [[i n] d] rest IH]; intros w Hp.
  - constructor.
  - change (result (convertToDatasets ((i, n, d) :: rest)) w)
      with (fst (convertToDatasets ((i, n, d) :: rest) w)).
    rewrite convertToDatasets_cons. cbn [fst].
    constructor; [reflexivity | ].
    assert (Hsame : result generateUUID (UUID.advance 31 w)
                    = result generateUUID w).
    { unfold result, generateUUID. apply replace_xy_footprint. intros k _.
      cbn [UUID.advance entropy drawn].
      replace (drawn w + 31 + k)%nat with (drawn w + k + 31)%nat by lia.
      apply Hp. }
    rewrite <- Hsame. apply IH. exact Hp.
Qed.

(** X4.  Nothing in [convertToDatasets] makes identifiers distinct: when
    the random source repeats with period 31, every record of the catalog
    gets the same identifier. *)
Theorem convertToDatasets_collision
  (resources : list (Z * string * string)) (w : World) (d1 d2 : Dataset) :
  (forall i, (entropy w (i + 31) == entropy w i)%Q) ->
  In d1 (result (convertToDatasets resources) w) ->
  In d2 (result (convertToDatasets resources) w) ->
  uuid d1 = uuid d2.
Proof.
  intros Hp H1 H2.
  pose proof (periodic_uuids resources w Hp) as Hall.
  rewrite Forall_forall in Hall.
  now rewrite (Hall _ H1), (Hall _ H2).
Qed.

Lemma convertToDatasets_collision_witness :
  uuid (mkDataset 1 "a" "A" "88888888-8888-4888-8888-888888888888")
  = uuid (mkDataset 2 "b" "B" "88888888-8888-4888-8888-888888888888").
Proof.
  refine (convertToDatasets_collision [(1, "a", "A"); (2, "b", "B")]
            Examples.midnight
            (mkDataset 1 "a" "A" "88888888-8888-4888-8888-888888888888")
            (mkDataset 2 "b" "B" "88888888-8888-4888-8888-888888888888")
            _ _ _).
  - intros i. reflexivity.
  - vm_compute. left. reflexivity.
  - vm_compute. right. left. reflexivity.
Defined.

(** ** The usage-count field *)











Lemma parsedCount_nonzero (value : string) : parsedCount value <> 0.
Proof.
  unfold parsedCount. destruct (parseInt value) as [n |]; [ | discriminate].
  destruct (n =? 0) eqn:Hn; [discriminate | now apply Z.eqb_neq].
Qed.







Example parsedCount_examples :
  parsedCount "abc" = 1 /\ parsedCount "" = 1 /\ parsedCount "0" = 1
  /\ parsedCount "-4" = -4 /\ parsedCount " 42" = 42
  /\ parsedCount "0x1f" = 31 /\ parsedCount "1e5" = 1.
Proof. repeat split. Qed.

(** ** The form as a state machine *)

Lemma generateODRLPolicy_run (dataset : Dataset) (config : PolicyConfig)
  (w : World) :
  generateODRLPolicy dataset config w
  = (result (generateODRLPolicy dataset config) w, w).
Proof. reflexivity. Qed.

Lemma policyEffect_result (s : State) (w : World) :
  result (policyEffect s) w
  = match selectedDataset s with
    | Some d =>
        mkState (datasets s) (selectedDataset s) (policyType s)
          (policyConfig s) (generateIDSPolicy d (policyConfig s))
          (result (generateODRLPolicy d (policyConfig s)) w)
    | None => s
    end.
Proof.
  unfold policyEffect. destruct (selectedDataset s) as [d |]; [ | reflexivity].
  unfold result at 1. unfold bind.
  rewrite generateODRLPolicy_run. reflexivity.
Qed.

Lemma policyEffect_frame (s : State) (w : World) :
  datasets (result (policyEffect s) w) = datasets s
  /\ selectedDataset (result (policyEffect s) w) = selectedDataset s
  /\ policyType (result (policyEffect s) w) = policyType s
  /\ policyConfig (result (policyEffect s) w) = policyConfig s.
Proof.
  rewrite policyEffect_result.
  destruct (selectedDataset s) eqn:Hsel; repeat split; assumption.
Qed.

Lemma initialState_result (resources : list (Z * string * string)) (w : World) :
  result (initialState resources) w
  = mkState (result (convertToDatasets resources) w) None restrict_consumer
      initialConfig "" "".
Proof.
  unfold initialState, result, bind, ret.
  now destruct (convertToDatasets resources w).
Qed.



Lemma reachable_invariant
  (resources : list (Z * string * string)) (w0 : World) (s : State) :
  reachable resources w0 s ->
  policyType s = type (policyConfig s)
  /\ (exists cs ks st et n,
        policyConfig s
        = mkPolicyConfig (policyType s) (Some cs) (Some ks) (Some st)
            (Some et) (Some n)
        /\ n <> 0)
  /\ datasets s = result (convertToDatasets resources) w0
  /\ (forall d, selectedDataset s = Some d -> In d (datasets s)).
Proof.
  induction 1 as [| s s' Hreach IH Hstep].
  - rewrite initialState_result. cbn.
    split; [reflexivity | ]. split.
    + exists [], [], "", "", 1. split; [reflexivity | discriminate].
    + split; [reflexivity | discriminate].
  - destruct IH as (Hty & (cs & ks & st & et & n & Hcfg & Hn) & Hds & Hsel).
    destruct Hstep as [e s w Hoff].
    destruct (policyEffect_frame (handle e s) w) as (Fd & Fs & Ft & Fc).
    rewrite Fd, Fs, Ft, Fc. clear Fd Fs Ft Fc.
    destruct s as [ds sel ty cfg ids odrl].
    cbn [policyType policyConfig datasets selectedDataset] in *.
    subst cfg ds. clear Hty.
    destruct e as [v | t | l | l | [|] v | v];
      unfold handle, handlePolicyTypeChange, handleConsumersChange,
        handleConnectorsChange, handleTimeChange, handleUsageCountChange,
        setPolicyConfig, setSelectedDataset;
      cbn [policyType policyConfig datasets selectedDataset type consumers
             connectors startTime endTime maxUsageCount offered] in *.
    all: split; [reflexivity | ].
    all: split; [ | split; [reflexivity | ]].
    all: try exact Hsel.
    all: try (do 5 eexists; split; [reflexivity | ];
              first [exact Hn | apply parsedCount_nonzero]).
    intros d ->. exact Hoff.
Qed.

(** X8.  In every state the form can reach, whatever the user does: the
    variant whose fields are shown is the variant the generators switch
    on; every parameter of the configuration is present and the count is
    not [0]; the catalog is the one built at the first render; and the
    selected dataset, if any, is one of the catalog. *)
Theorem reachable_form_invariant
  (resources : list (Z * string * string)) (w0 : World) (s : State) :
  reachable resources w0 s ->
  policyType s = type (policyConfig s)
  /\ (exists cs ks st et n,
        policyConfig s
        = mkPolicyConfig (policyType s) (Some cs) (Some ks) (Some st)
            (Some et) (Some n)
        /\ n <> 0)
  /\ datasets s = result (convertToDatasets resources) w0
  /\ (forall d, selectedDataset s = Some d -> In d (datasets s)).
Proof. apply reachable_invariant. Qed.

Lemma reachable_form_invariant_witness :
  policyType Examples.picked = type (policyConfig Examples.picked).
Proof.
  refine (proj1 (reachable_form_invariant Examples.catalog Examples.midnight
                   Examples.picked _)).
  eapply reachable_step; [apply reachable_initial | ].
  apply (step_event (SelectDataset (Some Examples.firstRecord))).
  vm_compute. left. reflexivity.
Defined.



(** X10.  Switching the variant loses no parameter: after switching to any
    variant and back, with the effect run after each switch, the
    configuration is what it was and the IDS text on display is the
    document of the original configuration. *)
Theorem type_switch_round_trip
  (s : State) (t : PolicyType) (w1 w2 : World) :
  policyType s = type (policyConfig s) ->
  let away := result (policyEffect (handlePolicyTypeChange t s)) w1 in
  let back :=
    result (policyEffect (handlePolicyTypeChange (policyType s) away)) w2 in
  consumers (policyConfig away) = consumers (policyConfig s)
  /\ connectors (policyConfig away) = connectors (policyConfig s)
  /\ startTime (policyConfig away) = startTime (policyConfig s)
  /\ endTime (policyConfig away) = endTime (policyConfig s)
  /\ maxUsageCount (policyConfig away) = maxUsageCount (policyConfig s)
  /\ policyConfig back = policyConfig s
  /\ policyType back = policyType s
  /\ (forall d,
        selectedDataset s = Some d ->
        idsPolicy back = generateIDSPolicy d (policyConfig s)).
Proof.
  intros Hty. cbv zeta.
  rewrite !policyEffect_result.
  destruct s as [ds sel ty [ty' cs ks st et n] ids odrl].
  cbn [policyType policyConfig type] in Hty. subst ty'.
  unfold handlePolicyTypeChange.
  cbn [policyType policyConfig datasets selectedDataset idsPolicy odrlPolicy
         type consumers connectors startTime endTime maxUsageCount].
  destruct sel as [d0 |];
    cbn [policyType policyConfig datasets selectedDataset idsPolicy
           odrlPolicy type consumers connectors startTime endTime
           maxUsageCount].
  - repeat split. intros d [= ->]. reflexivity.
  - repeat split. intros d Hd. discriminate Hd.
Qed.

Lemma type_switch_round_trip_witness :
  policyConfig
    (result
       (policyEffect
          (handlePolicyTypeChange (policyType Examples.picked)
             (result
                (policyEffect (handlePolicyTypeChange usage_count Examples.picked))
                Examples.noon)))
       Examples.midnight)
  = policyConfig Examples.picked.
Proof.
  refine (proj1 (proj2 (proj2 (proj2 (proj2
            (proj2 (type_switch_round_trip Examples.picked usage_count
                      Examples.noon Examples.midnight _))))))).
  vm_compute. reflexivity.
Defined.

(** ** What the documents say about the configuration *)

Lemma Number_toString_inj (n m : Z) :
  Number_toString 10 n = Number_toString 10 m -> n = m.
Proof.
  intros H. apply (f_equal read_decimal) in H.
  rewrite !read_decimal_Number_toString in H. now injection H.
Qed.

(** The IDS document, by the restriction the configuration imposes. *)
Lemma IDS_policy_by_restriction (dataset : Dataset) (config : PolicyConfig) :
  IDS.policy dataset config
  = match restriction_of config with
    | Unrestricted => IDS.basePolicy dataset
    | OnlyConsumer c =>
        Obj.set "ids:consumer" (JString c) (IDS.basePolicy dataset)
    | OnlyConnector c =>
        IDS.setConstraint
          [IDS.constraint "idsc:CONNECTOR" "idsc:EQUALS"
             (IDS.typedValue c "xsd:string")]
          (IDS.basePolicy dataset)
    | Within st et =>
        IDS.setConstraint
          [IDS.constraint "idsc:POLICY_EVALUATION_TIME" "idsc:AFTER"
             (IDS.typedValue st "xsd:dateTimeStamp");
           IDS.constraint "idsc:POLICY_EVALUATION_TIME" "idsc:BEFORE"
             (IDS.typedValue et "xsd:dateTimeStamp")]
          (IDS.basePolicy dataset)
    | AtMost n =>
        IDS.setConstraint
          [IDS.constraint "idsc:COUNT" "idsc:LTEQ"
             (IDS.typedValue (Number_toString 10 n) "xsd:double")]
          (IDS.basePolicy dataset)
    end.
Proof.
  unfold IDS.policy, restriction_of. destruct (type config).
  - destruct (consumers config) as [[| c cs] |]; reflexivity.
  - destruct (connectors config) as [[| c cs] |]; reflexivity.
  - destruct (startTime config) as [[| a st] |],
             (endTime config) as [[| b et] |]; reflexivity.
  - destruct (maxUsageCount config) as [n |]; [ | reflexivity].
    destruct (truthy_number (Some n)); reflexivity.
Qed.

Lemma ODRL_applyConfig_by_restriction (config : PolicyConfig) (base : json) :
  ODRL.applyConfig config base
  = match restriction_of config with
    | Unrestricted => base
    | OnlyConsumer c => ODRL.setAssignee c base
    | OnlyConnector c =>
        ODRL.setConstraint
          [ODRL.constraint "connector" "eq" (JString c)] base
    | Within st et =>
        ODRL.setConstraint
          [ODRL.constraint "dateTime" "gteq"
             (ODRL.typedValue st "xsd:dateTime");
           ODRL.constraint "dateTime" "lteq"
             (ODRL.typedValue et "xsd:dateTime")]
          base
    | AtMost n =>
        ODRL.setConstraint [ODRL.constraint "count" "lteq" (JNumber n)] base
    end.
Proof.
  unfold ODRL.applyConfig, restriction_of. destruct (type config).
  - destruct (consumers config) as [[| c cs] |]; reflexivity.
  - destruct (connectors config) as [[| c cs] |]; reflexivity.
  - destruct (startTime config) as [[| a st] |],
             (endTime config) as [[| b et] |]; reflexivity.
  - destruct (maxUsageCount config) as [n |]; [ | reflexivity].
    destruct (truthy_number (Some n)); reflexivity.
Qed.

Ltac placeholder_cases :=
  repeat match goal with
    | |- context [String.eqb ?a ?b] =>
        destruct (String.eqb_spec a b); subst
    | H : context [String.eqb ?a ?b] |- _ =>
        destruct (String.eqb_spec a b); subst
    end.

(** X11.  Two configurations give the same IDS document for a dataset
    exactly when they impose the same restriction: the same first
    consumer, the same first connector, the same two bounds or the same
    count.  The one confusion is that restricting to the placeholder
    consumer is written like no restriction at all. *)
Theorem IDS_document_determines_restriction
  (dataset : Dataset) (c1 c2 : PolicyConfig) :
  IDS.policy dataset c1 = IDS.policy dataset c2
  <-> modulo_placeholder IDS_placeholder (restriction_of c1)
      = modulo_placeholder IDS_placeholder (restriction_of c2).
Proof.
  rewrite !IDS_policy_by_restriction.
  destruct (restriction_of c1) as [| a1 | k1 | s1 e1 | n1],
           (restriction_of c2) as [| a2 | k2 | s2 e2 | n2].
  all: unfold modulo_placeholder, IDS_placeholder.
  all: placeholder_cases.
  all: cbn -[String.append Number_toString].
  all: split; intros H.
  all: try reflexivity; try discriminate H; try congruence.
  all: try (injection H as H; apply Number_toString_inj in H; congruence).
  all: inversion H; subst; first [reflexivity | contradiction].
Qed.

(** X12.  The same holds for the ODRL document at one clock reading, with
    the ODRL placeholder assignee in the place of the IDS one. *)
Theorem ODRL_document_determines_restriction
  (dataset : Dataset) (c1 c2 : PolicyConfig) (w : World) :
  result (ODRL.policy dataset c1) w = result (ODRL.policy dataset c2) w
  <-> modulo_placeholder ODRL_placeholder (restriction_of c1)
      = modulo_placeholder ODRL_placeholder (restriction_of c2).
Proof.
  rewrite !ODRL_policy_unfold, !ODRL_applyConfig_by_restriction.
  destruct (restriction_of c1) as [| a1 | k1 | s1 e1 | n1],
           (restriction_of c2) as [| a2 | k2 | s2 e2 | n2].
  all: unfold modulo_placeholder, ODRL_placeholder.
  all: placeholder_cases.
  all: cbn -[String.append].
  all: split; intros H.
  all: try reflexivity; try discriminate H; try congruence.
  all: inversion H; subst; first [reflexivity | contradiction].
Qed.

Example placeholder_consumer_is_invisible :
  IDS.policy Examples.weather
    (mkPolicyConfig restrict_consumer
       (Some ["http://example.com/party/data-consumer"]) None None None None)
  = IDS.basePolicy Examples.weather.
Proof. reflexivity. Qed.

(** ** RestrictConnector *)

(** X13.  With [type = restrict_connector] and a non-empty [connectors]
    list, the single permission of the IDS document carries exactly one
    constraint, [idsc:CONNECTOR] [idsc:EQUALS] the first connector as an
    [xsd:string], and that of the ODRL document exactly one constraint,
    [connector] [eq] the first connector; the consumer and assignee
    placeholders stay, and the connectors after the first change
    nothing. *)
Theorem restrict_connector_first_only
  (dataset : Dataset) (config : PolicyConfig) (k0 : string)
  (others : list string) (w : World) :
  type config = restrict_connector ->
  connectors config = Some (k0 :: others) ->
  (exists p,
      Obj.get "ids:permission" (IDS.policy dataset config) = Some (JArray [p])
      /\ Obj.get "ids:constraint" p
         = Some (JArray
             [JObject
                [("@type", JString "ids:Constraint");
                 ("ids:leftOperand",
                   JObject [("@id", JString "idsc:CONNECTOR")]);
                 ("ids:operator", JObject [("@id", JString "idsc:EQUALS")]);
                 ("ids:rightOperand",
                   JArray [JObject [("@value", JString k0);
                                    ("@type", JString "xsd:string")]])]]))
  /\ Obj.get "ids:consumer" (IDS.policy dataset config)
     = Some (JString "http://example.com/party/data-consumer")
  /\ (exists p,
        Obj.get "permission" (result (ODRL.policy dataset config) w)
        = Some (JArray [p])
        /\ Obj.get "constraint" p
           = Some (JArray
               [JObject
                  [("leftOperand", JString "connector");
                   ("operator", JString "eq");
                   ("rightOperand", JString k0)]])
        /\ Obj.get "assignee" p
           = Some (JString "http://example.com/ids/party/data-consumer"))
  /\ (forall config' others',
        type config' = restrict_connector ->
        connectors config' = Some (k0 :: others') ->
        generateIDSPolicy dataset config' = generateIDSPolicy dataset config
        /\ result (generateODRLPolicy dataset config') w
           = result (generateODRLPolicy dataset config) w).
Proof.
  intros Hty Hks.
  split; [ | split; [ | split]].
  - unfold IDS.policy. rewrite Hty, Hks. eexists. split; reflexivity.
  - unfold IDS.policy. rewrite Hty, Hks. reflexivity.
  - rewrite ODRL_policy_unfold. unfold ODRL.applyConfig. rewrite Hty, Hks.
    eexists. repeat split; reflexivity.
  - intros config' others' Hty' Hks'.
    rewrite !generateODRLPolicy_unfold, !ODRL_policy_unfold.
    unfold generateIDSPolicy, IDS.policy, ODRL.applyConfig.
    rewrite Hty, Hks, Hty', Hks'. split; reflexivity.
Qed.

Lemma restrict_connector_first_only_witness :
  Obj.get "ids:consumer"
    (IDS.policy Examples.weather
       (mkPolicyConfig restrict_connector None (Some ["k1"; "k2"]) None None
          None))
  = Some (JString "http://example.com/party/data-consumer").
Proof.
  exact (proj1 (proj2
           (restrict_connector_first_only Examples.weather
              (mkPolicyConfig restrict_connector None (Some ["k1"; "k2"])
                 None None None)
              "k1" ["k2"] Examples.noon eq_refl eq_refl))).
Defined.

(** ** From the catalog to the documents *)


